(** * EPSS / CISA KEV enrichment cache (epss_cache_db.py)

    A shallow embedding of [EPSSCacheDB]: the four SQLite tables, the
    statements each method executes, and the calls to [datetime.now()],
    followed by the properties of the cache that the specification states. *)

From Stdlib Require Import ZArith List String Ascii Lia Bool.
From Stdlib Require Import Floats.PrimFloat.
Import ListNotations.

Local Open Scope string_scope.
Local Open Scope Z_scope.
Set Warnings "-inexact-float".

(** ** Python's [datetime] and [timedelta]

    A naive [datetime] is a point of the proleptic Gregorian calendar with
    microsecond resolution; it is kept as the number of microseconds since
    0001-01-01T00:00:00 ([datetime.min]).  A [timedelta] is a signed number
    of microseconds.  The calendar functions follow CPython's
    [Lib/_pydatetime.py]. *)

Module Datetime.

Definition datetime := Z.
Definition timedelta := Z.

Definition US_PER_SECOND : Z := 1000000.
Definition US_PER_MINUTE : Z := 60 * US_PER_SECOND.
Definition US_PER_HOUR : Z := 3600 * US_PER_SECOND.
Definition US_PER_DAY : Z := 86400 * US_PER_SECOND.

(** [date.max.toordinal()], the ordinal of 9999-12-31. *)
Definition MAXORDINAL : Z := 3652059.

(** The instants a [datetime] object can hold: 0001-01-01T00:00:00 up to
    9999-12-31T23:59:59.999999. *)
Definition in_range (t : datetime) : Prop := 0 <= t < MAXORDINAL * US_PER_DAY.

Definition in_rangeb (t : datetime) : bool :=
  (0 <=? t) && (t <? MAXORDINAL * US_PER_DAY).

Definition _is_leap (year : Z) : bool :=
  (year mod 4 =? 0) && (negb (year mod 100 =? 0) || (year mod 400 =? 0)).

Definition _days_before_year (year : Z) : Z :=
  let y := year - 1 in y * 365 + y / 4 - y / 100 + y / 400.

Definition _DAYS_IN_MONTH (month : Z) : Z :=
  match month with
  | 1 => 31 | 2 => 28 | 3 => 31 | 4 => 30 | 5 => 31 | 6 => 30
  | 7 => 31 | 8 => 31 | 9 => 30 | 10 => 31 | 11 => 30 | 12 => 31
  | _ => -1
  end.

Definition _DAYS_BEFORE_MONTH (month : Z) : Z :=
  match month with
  | 1 => 0 | 2 => 31 | 3 => 59 | 4 => 90 | 5 => 120 | 6 => 151
  | 7 => 181 | 8 => 212 | 9 => 243 | 10 => 273 | 11 => 304 | 12 => 334
  | _ => -1
  end.

Definition _days_in_month (year month : Z) : Z :=
  if (month =? 2) && _is_leap year then 29 else _DAYS_IN_MONTH month.

Definition _days_before_month (year month : Z) : Z :=
  _DAYS_BEFORE_MONTH month + (if (2 <? month) && _is_leap year then 1 else 0).

Definition _ymd2ord (year month day : Z) : Z :=
  _days_before_year year + _days_before_month year month + day.

Definition _DI400Y : Z := 146097.
Definition _DI100Y : Z := 36524.
Definition _DI4Y : Z := 1461.

(** [_ord2ymd]: ordinal (0001-01-01 is day 1) to (year, month, day). *)
Definition _ord2ymd (ordinal : Z) : Z * Z * Z :=
  let n := ordinal - 1 in
  let n400 := n / _DI400Y in
  let n := n mod _DI400Y in
  let year := n400 * 400 + 1 in
  let n100 := n / _DI100Y in
  let n := n mod _DI100Y in
  let n4 := n / _DI4Y in
  let n := n mod _DI4Y in
  let n1 := n / 365 in
  let n := n mod 365 in
  let year := year + n100 * 100 + n4 * 4 + n1 in
  if (n1 =? 4) || (n100 =? 4) then (year - 1, 12, 31)
  else
    let leapyear := (n1 =? 3) && (negb (n4 =? 24) || (n100 =? 3)) in
    let month := Z.shiftr (n + 50) 5 in
    let preceding :=
      _DAYS_BEFORE_MONTH month + (if (2 <? month) && leapyear then 1 else 0) in
    if n <? preceding then
      let month := month - 1 in
      let preceding :=
        preceding
        - (_DAYS_IN_MONTH month + (if (month =? 2) && leapyear then 1 else 0)) in
      (year, month, n - preceding + 1)
    else (year, month, n - preceding + 1).

(** The seven fields of a [datetime] object. *)
Record fields := {
  year : Z; month : Z; day : Z;
  hour : Z; minute : Z; second : Z; microsecond : Z
}.

Definition to_fields (t : datetime) : fields :=
  let '(y, m, d) := _ord2ymd (t / US_PER_DAY + 1) in
  let r := t mod US_PER_DAY in
  {| year := y; month := m; day := d;
     hour := r / US_PER_HOUR;
     minute := (r mod US_PER_HOUR) / US_PER_MINUTE;
     second := (r mod US_PER_MINUTE) / US_PER_SECOND;
     microsecond := r mod US_PER_SECOND |}.

Definition of_fields (f : fields) : datetime :=
  (_ymd2ord (year f) (month f) (day f) - 1) * US_PER_DAY
  + hour f * US_PER_HOUR + minute f * US_PER_MINUTE
  + second f * US_PER_SECOND + microsecond f.

(** Decimal rendering on a fixed width, as [%0wd] prints a number below
    [10^w]. *)
Definition digit (n : Z) : ascii := ascii_of_N (Z.to_N (48 + n mod 10)).

Fixpoint zfill (width : nat) (n : Z) : string :=
  match width with
  | O => EmptyString
  | S w => String (digit (n / 10 ^ Z.of_nat w)) (zfill w n)
  end.

(** [datetime.isoformat()] of a naive datetime: [YYYY-MM-DDTHH:MM:SS], and
    [.ffffff] appended when the microsecond field is not zero. *)
Definition isoformat (t : datetime) : string :=
  let f := to_fields t in
  zfill 4 (year f) ++ "-" ++ zfill 2 (month f) ++ "-" ++ zfill 2 (day f)
  ++ "T" ++ zfill 2 (hour f) ++ ":" ++ zfill 2 (minute f) ++ ":"
  ++ zfill 2 (second f)
  ++ (if microsecond f =? 0 then "" else "." ++ zfill 6 (microsecond f)).

(** SQLite's [datetime(...)] text: [YYYY-MM-DD HH:MM:SS], the fraction of
    the second dropped. *)
Definition sqlite_datetime (t : datetime) : string :=
  let f := to_fields t in
  zfill 4 (year f) ++ "-" ++ zfill 2 (month f) ++ "-" ++ zfill 2 (day f)
  ++ " " ++ zfill 2 (hour f) ++ ":" ++ zfill 2 (minute f) ++ ":"
  ++ zfill 2 (second f).

(** [timedelta(days=d)] raises [OverflowError] when [|d| > 999999999]. *)
Definition timedelta_days_ok (d : Z) : bool :=
  (-999999999 <=? d) && (d <=? 999999999).

Definition days (d : Z) : timedelta := d * US_PER_DAY.
Definition hours (h : Z) : timedelta := h * US_PER_HOUR.
Definition seconds (s : Z) : timedelta := s * US_PER_SECOND.

End Datetime.

Import Datetime.

(** ** The SQLite store

    Every table is a list of rows in rowid order.  The [PRIMARY KEY]
    constraints are not part of the representation: they are what
    [INSERT OR REPLACE] maintains, and are proved as an invariant. *)

(** A Python [float] bound to a [REAL] column and read back: SQLite stores
    NaN as NULL, and keeps a REAL without fraction as an integer, so that
    [-0.0] comes back as [0.0]; every other value comes back as it was. *)
Definition bind_real (x : float) : option float :=
  if PrimFloat.eqb x x then
    if PrimFloat.eqb x 0%float then Some 0%float else Some x
  else None.

(** [epss_cache]: [cached_at] and [last_accessed] are TEXT columns holding
    [datetime.isoformat()]; a row keeps the instant that the text denotes
    ([datetime.fromisoformat] reads it back), and the statements that
    compare the column as text compare the [isoformat] of it. *)
Module Epss.
Record row := {
  cve_id : string;
  epss_score : option float;
  percentile : option float;
  model_version : string;
  score_date : string;
  cached_at : datetime;
  last_accessed : datetime
}.

Definition set_last_accessed (t : datetime) (r : row) : row :=
  {| cve_id := cve_id r; epss_score := epss_score r;
     percentile := percentile r; model_version := model_version r;
     score_date := score_date r; cached_at := cached_at r;
     last_accessed := t |}.
End Epss.

Module Kev.
Record row := {
  cve_id : string;
  vendor_project : string;
  product : string;
  vulnerability_name : string;
  date_added : string;
  short_description : string;
  required_action : string;
  due_date : string;
  cached_at : datetime;
  last_accessed : datetime
}.

Definition set_last_accessed (t : datetime) (r : row) : row :=
  {| cve_id := cve_id r; vendor_project := vendor_project r;
     product := product r; vulnerability_name := vulnerability_name r;
     date_added := date_added r; short_description := short_description r;
     required_action := required_action r; due_date := due_date r;
     cached_at := cached_at r; last_accessed := t |}.
End Kev.

(** [api_call_log]: [timestamp] is kept as the stored text, since the only
    statement that reads it compares it with a text SQLite produces. *)
Module Log.
Record row := {
  id : Z;
  api_type : string;
  endpoint : string;
  parameters : string;
  status_code : Z;
  response_time : option float;
  cached : bool;
  timestamp : string
}.
End Log.

Module Meta.
Record row := {
  key : string;
  value : string;
  updated_at : datetime
}.
End Meta.

(** The database file.  [sqlite_sequence] is the entry SQLite keeps for the
    [AUTOINCREMENT] column of [api_call_log]: the largest rowid ever used. *)
Record db := {
  epss_cache : list Epss.row;
  cisa_kev_cache : list Kev.row;
  api_call_log : list Log.row;
  sqlite_sequence : Z;
  metadata : list Meta.row
}.

(** A database file that does not exist yet. *)
Definition empty_db : db :=
  {| epss_cache := []; cisa_kev_cache := []; api_call_log := [];
     sqlite_sequence := 0; metadata := [] |}.

Definition with_epss_cache (f : list Epss.row -> list Epss.row) (d : db) : db :=
  {| epss_cache := f (epss_cache d); cisa_kev_cache := cisa_kev_cache d;
     api_call_log := api_call_log d; sqlite_sequence := sqlite_sequence d;
     metadata := metadata d |}.

Definition with_cisa_kev_cache (f : list Kev.row -> list Kev.row) (d : db) : db :=
  {| epss_cache := epss_cache d; cisa_kev_cache := f (cisa_kev_cache d);
     api_call_log := api_call_log d; sqlite_sequence := sqlite_sequence d;
     metadata := metadata d |}.

Definition with_metadata (f : list Meta.row -> list Meta.row) (d : db) : db :=
  {| epss_cache := epss_cache d; cisa_kev_cache := cisa_kev_cache d;
     api_call_log := api_call_log d; sqlite_sequence := sqlite_sequence d;
     metadata := f (metadata d) |}.

(** *** Statements on one table *)

Section Table.
Context {R : Type} (key : R -> string).

(** [SELECT ... WHERE key = ?] followed by [fetchone()]. *)
Definition fetchone_by_key (k : string) (t : list R) : option R :=
  find (fun r => key r =? k)%string t.

(** [INSERT OR REPLACE]: the rows in conflict on the primary key are
    deleted, then the new row is inserted. *)
Definition insert_or_replace (r : R) (t : list R) : list R :=
  (filter (fun x => negb (key x =? key r)%string) t ++ [r])%list.

(** [UPDATE ... SET ... WHERE key = ?]. *)
Definition update_by_key (k : string) (f : R -> R) (t : list R) : list R :=
  map (fun r => if (key r =? k)%string then f r else r) t.

(** [DELETE FROM ... WHERE p], and the [rowcount] it leaves. *)
Definition delete_where (p : R -> bool) (t : list R) : list R :=
  filter (fun r => negb (p r)) t.

Definition rowcount_where (p : R -> bool) (t : list R) : Z :=
  Z.of_nat (List.length (filter p t)).
End Table.

(** Comparison of TEXT values under the BINARY collation: byte by byte. *)
Definition sql_text_lt (a b : string) : bool := String.ltb a b.
Definition sql_text_gt (a b : string) : bool := String.ltb b a.

(** ** The process: store, clocks, exceptions *)

Inductive exn :=
| OverflowError      (* datetime / timedelta arithmetic out of range,
                        or an int that does not fit an SQLite INTEGER *)
| TypeError          (* json.dumps on a value it cannot serialise *)
| OperationalError.  (* SQLITE_FULL on an exhausted AUTOINCREMENT *)

Inductive outcome (A : Type) :=
| Return (a : A)
| Raise (e : exn).
Arguments Return {A} a.
Arguments Raise {A} e.

(** [wall_clock] answers [datetime.now()] (naive local time) and
    [sqlite_clock] answers SQLite's ['now'] (UTC); [ticks] counts the
    readings taken so far. *)
Record world := {
  store : db;
  ticks : nat;
  wall_clock : nat -> datetime;
  sqlite_clock : nat -> datetime
}.

Definition with_store (f : db -> db) (w : world) : world :=
  {| store := f (store w); ticks := ticks w;
     wall_clock := wall_clock w; sqlite_clock := sqlite_clock w |}.

Definition tick (w : world) : world :=
  {| store := store w; ticks := S (ticks w);
     wall_clock := wall_clock w; sqlite_clock := sqlite_clock w |}.

Definition M (A : Type) : Type := world -> outcome A * world.

Definition ret {A} (a : A) : M A := fun w => (Return a, w).

Definition raise {A} (e : exn) : M A := fun w => (Raise e, w).

Definition bind {A B} (m : M A) (k : A -> M B) : M B :=
  fun w =>
    match m w with
    | (Return a, w') => k a w'
    | (Raise e, w') => (Raise e, w')
    end.

Declare Scope py_scope.
Delimit Scope py_scope with py.
Notation "x <- m ;; k" := (bind m (fun x => k))
  (at level 61, m at next level, right associativity) : py_scope.
Notation "m ;; k" := (bind m (fun _ => k))
  (at level 61, right associativity) : py_scope.
Local Open Scope py_scope.

Definition gets {A} (f : db -> A) : M A := fun w => (Return (f (store w)), w).

Definition execute (f : db -> db) : M unit :=
  fun w => (Return tt, with_store f w).

(** A statement together with the [cursor.rowcount] it leaves. *)
Definition execute_rowcount (count : db -> Z) (f : db -> db) : M Z :=
  fun w => (Return (count (store w)), with_store f w).

(** [self.conn.commit()]: the connection already sees its own writes. *)
Definition commit : M unit := ret tt.

(** [datetime.now()]. *)
Definition datetime_now : M datetime :=
  fun w => (Return (wall_clock w (ticks w)), tick w).

(** SQLite's ['now']. *)
Definition sqlite_now : M datetime :=
  fun w => (Return (sqlite_clock w (ticks w)), tick w).

(** [timedelta(days=d)]. *)
Definition timedelta_days (d : Z) : M timedelta :=
  if timedelta_days_ok d then ret (days d) else raise OverflowError.

(** [datetime - timedelta]: [OverflowError] when the result leaves the
    years 1..9999. *)
Definition datetime_sub (t : datetime) (d : timedelta) : M datetime :=
  if in_rangeb (t - d) then ret (t - d) else raise OverflowError.

(** ** [class EPSSCacheDB] *)

(** The dict [get_epss_score] returns. *)
Module Score.
Record t := {
  epss : option float;
  percentile : option float;
  model_version : string;
  score_date : string
}.
End Score.

(** The dict [get_cache_stats] returns; [recent_calls_by_type] lists each
    key once with its count. *)
Module Stats.
Record t := {
  epss_cached_entries : Z;
  cisa_kev_cached_entries : Z;
  total_api_calls : Z;
  cached_api_calls : Z;
  recent_calls_by_type : list (string * Z)
}.
End Stats.

(** The dict [clear_expired_cache] returns. *)
Module Swept.
Record t := {
  epss_deleted : Z;
  kev_deleted : Z
}.
End Swept.

(** [SELECT k, COUNT( * ) ... GROUP BY k] read into a dict. *)
Fixpoint dict_incr (k : string) (d : list (string * Z)) : list (string * Z) :=
  match d with
  | [] => [(k, 1)]
  | (k', n) :: d' =>
      if (k' =? k)%string then (k', n + 1) :: d' else (k', n) :: dict_incr k d'
  end.

Definition group_count (ks : list string) : list (string * Z) :=
  fold_left (fun d k => dict_incr k d) ks [].

Fixpoint dict_get (k : string) (d : list (string * Z)) : option Z :=
  match d with
  | [] => None
  | (k', n) :: d' => if (k' =? k)%string then Some n else dict_get k d'
  end.

(** The rowid an [AUTOINCREMENT] insert takes: one more than the largest
    rowid the table has ever held. *)
Definition max_rowid (t : list Log.row) : Z :=
  fold_right (fun r m => Z.max (Log.id r) m) 0 t.

Definition MAX_ROWID : Z := 9223372036854775807.

(** The Python [int]s that [sqlite3] binds: those of 64 signed bits. *)
Definition sqlite_integer_ok (n : Z) : bool :=
  (-9223372036854775808 <=? n) && (n <=? 9223372036854775807).

Definition _set_metadata (key value : string) : M unit :=
  now <- datetime_now ;;
  execute (with_metadata (insert_or_replace Meta.key
    {| Meta.key := key; Meta.value := value; Meta.updated_at := now |})) ;;
  commit.

Definition _get_metadata (key : string) : M (option string) :=
  result <- gets (fun d => fetchone_by_key Meta.key key (metadata d)) ;;
  ret (match result with Some r => Some (Meta.value r) | None => None end).

(** The [CREATE TABLE IF NOT EXISTS] statements leave existing tables as
    they are; on a new file they give [empty_db].  The database file is one
    that [sqlite3.connect] opens: a file that cannot be opened, or a disk
    that fails, is not part of the model. *)
Definition _init_database : M unit :=
  commit ;;
  _set_metadata "db_version" "1.0" ;;
  now <- datetime_now ;;
  _set_metadata "created_at" (isoformat now).

Definition cache_epss_score (cve_id : string) (epss_score percentile : float)
    (model_version score_date : string) : M unit :=
  now <- datetime_now ;;
  execute (with_epss_cache (insert_or_replace Epss.cve_id
    {| Epss.cve_id := cve_id;
       Epss.epss_score := bind_real epss_score;
       Epss.percentile := bind_real percentile;
       Epss.model_version := model_version;
       Epss.score_date := score_date;
       Epss.cached_at := now;
       Epss.last_accessed := now |})) ;;
  commit.

Definition get_epss_score (cve_id : string) (max_age_days : Z)
    : M (option Score.t) :=
  result <- gets (fun d => fetchone_by_key Epss.cve_id cve_id (epss_cache d)) ;;
  match result with
  | None => ret None
  | Some result =>
      let cached_at := Epss.cached_at result in
      now <- datetime_now ;;
      max_age <- timedelta_days max_age_days ;;
      if now - cached_at >? max_age then ret None
      else
        now <- datetime_now ;;
        execute (with_epss_cache
          (update_by_key Epss.cve_id cve_id (Epss.set_last_accessed now))) ;;
        commit ;;
        ret (Some {| Score.epss := Epss.epss_score result;
                     Score.percentile := Epss.percentile result;
                     Score.model_version := Epss.model_version result;
                     Score.score_date := Epss.score_date result |})
  end.

Definition cache_cisa_kev (cve_id vendor_project product vulnerability_name
    date_added short_description required_action due_date : string) : M unit :=
  now <- datetime_now ;;
  execute (with_cisa_kev_cache (insert_or_replace Kev.cve_id
    {| Kev.cve_id := cve_id;
       Kev.vendor_project := vendor_project;
       Kev.product := product;
       Kev.vulnerability_name := vulnerability_name;
       Kev.date_added := date_added;
       Kev.short_description := short_description;
       Kev.required_action := required_action;
       Kev.due_date := due_date;
       Kev.cached_at := now;
       Kev.last_accessed := now |})) ;;
  commit.

Definition is_in_cisa_kev (cve_id : string) (max_age_days : Z) : M bool :=
  result <- gets (fun d => fetchone_by_key Kev.cve_id cve_id (cisa_kev_cache d)) ;;
  match result with
  | None => ret false
  | Some result =>
      let cached_at := Kev.cached_at result in
      now <- datetime_now ;;
      max_age <- timedelta_days max_age_days ;;
      if now - cached_at >? max_age then ret false
      else
        now <- datetime_now ;;
        execute (with_cisa_kev_cache
          (update_by_key Kev.cve_id cve_id (Kev.set_last_accessed now))) ;;
        commit ;;
        ret true
  end.

(** The set is given by the list of its elements. *)
Definition get_all_cisa_kev_cves (max_age_days : Z) : M (list string) :=
  now <- datetime_now ;;
  max_age <- timedelta_days max_age_days ;;
  cutoff <- datetime_sub now max_age ;;
  let cutoff := isoformat cutoff in
  rows <- gets (fun d =>
    filter (fun r => sql_text_gt (isoformat (Kev.cached_at r)) cutoff)
           (cisa_kev_cache d)) ;;
  ret (map Kev.cve_id rows).

Section LogApiCall.
(** [json.dumps] on the dict passed; [None] when it raises [TypeError]
    on a value that cannot be serialised. *)
Context {Dict : Type} (json_dumps : Dict -> option string).

(** The tuple of parameters is built left to right, [json.dumps] before
    [datetime.now()]; binding it, [sqlite3] refuses an [int] outside 64
    bits with [OverflowError]; then the insert takes its rowid. *)
Definition log_api_call (api_type endpoint : string) (parameters : Dict)
    (status_code : Z) (response_time : float) (cached : bool) : M unit :=
  match json_dumps parameters with
  | None => raise TypeError
  | Some parameters =>
      now <- datetime_now ;;
      if negb (sqlite_integer_ok status_code) then raise OverflowError
      else
        last <- gets (fun d =>
          Z.max (sqlite_sequence d) (max_rowid (api_call_log d))) ;;
        if MAX_ROWID <=? last then raise OperationalError
        else
          execute (fun d =>
            {| epss_cache := epss_cache d;
               cisa_kev_cache := cisa_kev_cache d;
               api_call_log :=
                 (api_call_log d ++
                  [{| Log.id := last + 1;
                      Log.api_type := api_type;
                      Log.endpoint := endpoint;
                      Log.parameters := parameters;
                      Log.status_code := status_code;
                      Log.response_time := bind_real response_time;
                      Log.cached := cached;
                      Log.timestamp := isoformat now |}])%list;
               sqlite_sequence := last + 1;
               metadata := metadata d |}) ;;
          commit
  end.
End LogApiCall.

Definition get_cache_stats : M Stats.t :=
  epss_n <- gets (fun d => Z.of_nat (List.length (epss_cache d))) ;;
  kev_n <- gets (fun d => Z.of_nat (List.length (cisa_kev_cache d))) ;;
  total <- gets (fun d => Z.of_nat (List.length (api_call_log d))) ;;
  cached_n <- gets (fun d => rowcount_where Log.cached (api_call_log d)) ;;
  now <- sqlite_now ;;
  let cutoff := sqlite_datetime (now - hours 24) in
  recent <- gets (fun d =>
    group_count (map Log.api_type
      (filter (fun r => sql_text_gt (Log.timestamp r) cutoff)
              (api_call_log d)))) ;;
  ret {| Stats.epss_cached_entries := epss_n;
         Stats.cisa_kev_cached_entries := kev_n;
         Stats.total_api_calls := total;
         Stats.cached_api_calls := cached_n;
         Stats.recent_calls_by_type := recent |}.

Definition clear_expired_cache (epss_max_age_days kev_max_age_days : Z)
    : M Swept.t :=
  now <- datetime_now ;;
  epss_max_age <- timedelta_days epss_max_age_days ;;
  epss_cutoff <- datetime_sub now epss_max_age ;;
  let epss_cutoff := isoformat epss_cutoff in
  now <- datetime_now ;;
  kev_max_age <- timedelta_days kev_max_age_days ;;
  kev_cutoff <- datetime_sub now kev_max_age ;;
  let kev_cutoff := isoformat kev_cutoff in
  let epss_expired r := sql_text_lt (isoformat (Epss.cached_at r)) epss_cutoff in
  epss_deleted <- execute_rowcount
    (fun d => rowcount_where epss_expired (epss_cache d))
    (with_epss_cache (delete_where epss_expired)) ;;
  let kev_expired r := sql_text_lt (isoformat (Kev.cached_at r)) kev_cutoff in
  kev_deleted <- execute_rowcount
    (fun d => rowcount_where kev_expired (cisa_kev_cache d))
    (with_cisa_kev_cache (delete_where kev_expired)) ;;
  commit ;;
  ret {| Swept.epss_deleted := epss_deleted; Swept.kev_deleted := kev_deleted |}.

(** Running a method: its outcome and the process afterwards. *)
Definition result {A} (m : M A) (w : world) : outcome A := fst (m w).
Definition after {A} (m : M A) (w : world) : world := snd (m w).

(** ** Auxiliary notions for the order of ISO texts *)

Module DatetimeKeys.

Definition valid_fields (f : fields) : Prop :=
  1 <= year f <= 9999 /\ 1 <= month f <= 12 /\ 1 <= day f <= 31 /\
  0 <= hour f < 24 /\ 0 <= minute f < 60 /\ 0 <= second f < 60 /\
  0 <= microsecond f < 1000000.

(** The fields read as one number, most significant first. *)
Definition sort_key (f : fields) : Z :=
  (((((year f * 100 + month f) * 100 + day f) * 100 + hour f) * 100
    + minute f) * 100 + second f) * 1000000 + microsecond f.

Definition iso_text (f : fields) : string :=
  zfill 4 (year f) ++ "-" ++ zfill 2 (month f) ++ "-" ++ zfill 2 (day f)
  ++ "T" ++ zfill 2 (hour f) ++ ":" ++ zfill 2 (minute f) ++ ":"
  ++ zfill 2 (second f)
  ++ (if microsecond f =? 0 then "" else "." ++ zfill 6 (microsecond f)).

Definition date_key (ymd : Z * Z * Z) : Z :=
  let '(y, m, d) := ymd in (y * 100 + m) * 100 + d.

Definition ymd_ok (ymd : Z * Z * Z) : bool :=
  let '(y, m, d) := ymd in
  (1 <=? y) && (y <=? 400) && (1 <=? m) && (m <=? 12) && (1 <=? d) && (d <=? 31).

(** Walking through [n] consecutive ordinals from [i], [key] being the key
    of the day before: every date is well formed and the keys increase. *)
Fixpoint days_ok (i : Z) (key : Z) (n : nat) : bool :=
  match n with
  | O => true
  | S k =>
      let ymd := _ord2ymd i in
      ymd_ok ymd && (key <? date_key ymd) && days_ok (i + 1) (date_key ymd) k
  end.

(** The key of the time of day. *)
Definition time_key (f : fields) : Z :=
  ((hour f * 100 + minute f) * 100 + second f) * 1000000 + microsecond f.

End DatetimeKeys.

(** ** Notions the properties are stated with *)

(** What the next [datetime.now()] returns. *)
Definition now (w : world) : datetime := wall_clock w (ticks w).

(** The same process at a later moment: [n] more clock readings taken. *)
Definition later (n : nat) (w : world) : world :=
  {| store := store w; ticks := ticks w + n;
     wall_clock := wall_clock w; sqlite_clock := sqlite_clock w |}.

(** The entry of an identifier, as [SELECT ... WHERE cve_id = ?] finds it. *)
Definition epss_entry (d : db) (cve_id : string) : option Epss.row :=
  fetchone_by_key Epss.cve_id cve_id (epss_cache d).

Definition kev_entry (d : db) (cve_id : string) : option Kev.row :=
  fetchone_by_key Kev.cve_id cve_id (cisa_kev_cache d).

(** Two entries that differ at most in their two timestamps. *)
Definition same_epss_fields (r r' : Epss.row) : Prop :=
  Epss.cve_id r = Epss.cve_id r' /\
  Epss.epss_score r = Epss.epss_score r' /\
  Epss.percentile r = Epss.percentile r' /\
  Epss.model_version r = Epss.model_version r' /\
  Epss.score_date r = Epss.score_date r'.

Definition same_kev_fields (r r' : Kev.row) : Prop :=
  Kev.cve_id r = Kev.cve_id r' /\
  Kev.vendor_project r = Kev.vendor_project r' /\
  Kev.product r = Kev.product r' /\
  Kev.vulnerability_name r = Kev.vulnerability_name r' /\
  Kev.date_added r = Kev.date_added r' /\
  Kev.short_description r = Kev.short_description r' /\
  Kev.required_action r = Kev.required_action r' /\
  Kev.due_date r = Kev.due_date r'.

(** The clock never steps back. *)
Definition steady_clock (w : world) : Prop :=
  forall n m : nat, (n <= m)%nat -> wall_clock w n <= wall_clock w m.

(** Every reading of the clock is a [datetime]. *)
Definition clock_in_range (w : world) : Prop :=
  forall n : nat, in_range (wall_clock w n).

(** Every stored [cached_at] is a [datetime]. *)
Definition stamps_in_range (d : db) : Prop :=
  Forall (fun r => in_range (Epss.cached_at r)) (epss_cache d) /\
  Forall (fun r => in_range (Kev.cached_at r)) (cisa_kev_cache d).

(** No stored timestamp is ahead of the clock. *)
Definition stamps_in_past (w : world) : Prop :=
  Forall (fun r => Epss.last_accessed r <= now w) (epss_cache (store w)) /\
  Forall (fun r => Kev.last_accessed r <= now w) (cisa_kev_cache (store w)).

(** The invariant of the two caches. *)
Definition unique_ids (d : db) : Prop :=
  NoDup (map Epss.cve_id (epss_cache d)) /\
  NoDup (map Kev.cve_id (cisa_kev_cache d)).

Definition accessed_after_cached (d : db) : Prop :=
  Forall (fun r => Epss.cached_at r <= Epss.last_accessed r) (epss_cache d) /\
  Forall (fun r => Kev.cached_at r <= Kev.last_accessed r) (cisa_kev_cache d).

Definition cache_invariant (d : db) : Prop :=
  unique_ids d /\ accessed_after_cached d.

(** The calls a client of [EPSSCacheDB] can make; [Init] is the constructor
    run on the database file as it stands. *)
Section Calls.
Context {Dict : Type}.

Inductive call : Type :=
| Init
| SetMetadata (key value : string)
| GetMetadata (key : string)
| CacheEpssScore (cve_id : string) (epss_score percentile : float)
    (model_version score_date : string)
| GetEpssScore (cve_id : string) (max_age_days : Z)
| CacheCisaKev (cve_id vendor_project product vulnerability_name date_added
    short_description required_action due_date : string)
| IsInCisaKev (cve_id : string) (max_age_days : Z)
| GetAllCisaKevCves (max_age_days : Z)
| LogApiCall (api_type endpoint : string) (parameters : Dict)
    (status_code : Z) (response_time : float) (cached : bool)
| GetCacheStats
| ClearExpiredCache (epss_max_age_days kev_max_age_days : Z).

Context (json_dumps : Dict -> option string).

(** The process after a call, whether it returned or raised. *)
Definition perform (c : call) (w : world) : world :=
  match c with
  | Init => after _init_database w
  | SetMetadata k v => after (_set_metadata k v) w
  | GetMetadata k => after (_get_metadata k) w
  | CacheEpssScore i s p mv sd => after (cache_epss_score i s p mv sd) w
  | GetEpssScore i a => after (get_epss_score i a) w
  | CacheCisaKev i v p n da sd ra dd =>
      after (cache_cisa_kev i v p n da sd ra dd) w
  | IsInCisaKev i a => after (is_in_cisa_kev i a) w
  | GetAllCisaKevCves a => after (get_all_cisa_kev_cves a) w
  | LogApiCall t e p sc rt c => after (log_api_call json_dumps t e p sc rt c) w
  | GetCacheStats => after get_cache_stats w
  | ClearExpiredCache e k => after (clear_expired_cache e k) w
  end.

(** The processes reachable from a new database file through the calls,
    whatever the clocks read. *)
Inductive reachable : world -> Prop :=
| reachable_new (w : world) :
    store w = empty_db -> reachable (perform Init w)
| reachable_call (w : world) (c : call) :
    reachable w -> reachable (perform c w).
End Calls.
Arguments call : clear implicits.

(** What the induction over the calls carries along. *)
Definition well_kept (w : world) : Prop :=
  steady_clock w /\ stamps_in_past w /\ cache_invariant (store w).

(** A row whose timestamps are in order and not after [t]. *)
Definition epss_row_ok (t : datetime) (r : Epss.row) : Prop :=
  Epss.cached_at r <= Epss.last_accessed r /\ Epss.last_accessed r <= t.

Definition kev_row_ok (t : datetime) (r : Kev.row) : Prop :=
  Kev.cached_at r <= Kev.last_accessed r /\ Kev.last_accessed r <= t.

(** The text of [sqlite_datetime], from the fields. *)
Definition sqlite_text (f : fields) : string :=
  zfill 4 (year f) ++ "-" ++ zfill 2 (month f) ++ "-" ++ zfill 2 (day f)
  ++ " " ++ zfill 2 (hour f) ++ ":" ++ zfill 2 (minute f) ++ ":"
  ++ zfill 2 (second f).

(** ** Sample processes *)

Module Sample.

(** 2024-01-01T00:00:00. *)
Definition t0 : datetime :=
  of_fields {| year := 2024; month := 1; day := 1; hour := 0; minute := 0;
               second := 0; microsecond := 0 |}.

(** A clock that reads [first] the first [k] times and [next] afterwards. *)
Definition clock (k : nat) (first next : datetime) (n : nat) : datetime :=
  if (n <? k)%nat then first else next.

(** A process on a new database file; SQLite's clock agrees with Python's
    (the machine runs on UTC). *)
Definition new_world (k : nat) (first next : datetime) : world :=
  {| store := empty_db; ticks := 0;
     wall_clock := clock k first next; sqlite_clock := clock k first next |}.

Definition quote : string := String (ascii_of_nat 34) EmptyString.

(** [json.dumps] on the dict with the one key [cve], as the callers of
    [log_api_call] pass it. *)
Definition json_dumps (cve : string) : option string :=
  Some ("{" ++ quote ++ "cve" ++ quote ++ ": " ++ quote ++ cve ++ quote ++ "}").

(** One EPSS entry written at [t0]; the clock reads [next] afterwards. *)
Definition with_epss (next : datetime) : world :=
  after (cache_epss_score "CVE-1" 0.42 90.0 "v1" "2024-01-01")
        (new_world 1 t0 next).

(** One KEV entry written at [t0]. *)
Definition with_kev (next : datetime) : world :=
  after (cache_cisa_kev "CVE-2021-44228" "Apache" "Log4j2" "Log4Shell"
           "2021-12-10" "Remote code execution" "Apply updates" "2021-12-24")
        (new_world 1 t0 next).

(** One KEV and one EPSS entry written at [t0]. *)
Definition with_both (next : datetime) : world :=
  after (cache_epss_score "CVE-1" 0.42 90.0 "v1" "2024-01-01")
    (after (cache_cisa_kev "CVE-2021-44228" "Apache" "Log4j2" "Log4Shell"
              "2021-12-10" "Remote code execution" "Apply updates"
              "2021-12-24")
       (new_world 2 t0 next)).

(** Three EPSS entries written at [t0]. *)
Definition with_three (next : datetime) : world :=
  after (cache_epss_score "CVE-3" 0.3 30.0 "v1" "2024-01-01")
    (after (cache_epss_score "CVE-2" 0.2 20.0 "v1" "2024-01-01")
       (after (cache_epss_score "CVE-1" 0.42 90.0 "v1" "2024-01-01")
          (new_world 3 t0 next))).

(** One call logged at [t0]. *)
Definition with_call (next : datetime) : world :=
  after (log_api_call json_dumps "EPSS" "https://api.first.org/data/v1/epss"
           "CVE-2024-1234" 200 0.5 false)
        (new_world 1 t0 next).

End Sample.

(** ** Further notions: metadata, listing, statistics *)

(** The value of a metadata key, as [SELECT value ... WHERE key = ?] finds
    it. *)
Definition metadata_value (d : db) (key : string) : option string :=
  option_map Meta.value (fetchone_by_key Meta.key key (metadata d)).

(** The audit log numbered 1, 2, ... in insertion order, and
    [sqlite_sequence] at the last number given. *)
Definition log_numbered (d : db) : Prop :=
  map Log.id (api_call_log d)
  = map Z.of_nat (seq 1 (List.length (api_call_log d))) /\
  sqlite_sequence d = Z.of_nat (List.length (api_call_log d)).

(** Every timestamp of the audit log is the ISO text of a [datetime]. *)
Definition log_stamped (d : db) : Prop :=
  Forall (fun r => exists t, in_range t /\ Log.timestamp r = isoformat t)
         (api_call_log d).

(** A process whose clock and stored times are all [datetime]s. *)
Definition times_in_range (w : world) : Prop :=
  clock_in_range w /\ stamps_in_range (store w) /\ log_stamped (store w).

(** * Properties *)

(** ** Sample renderings *)

Example isoformat_new_year :
  isoformat (of_fields {| year := 2024; month := 1; day := 1; hour := 0;
                          minute := 0; second := 1; microsecond := 0 |})
  = "2024-01-01T00:00:01".
Proof. vm_compute. reflexivity. Qed.

Example isoformat_leap_day :
  isoformat (of_fields {| year := 2024; month := 2; day := 29; hour := 23;
                          minute := 59; second := 59; microsecond := 12 |})
  = "2024-02-29T23:59:59.000012".
Proof. vm_compute. reflexivity. Qed.

Example isoformat_max :
  isoformat (MAXORDINAL * US_PER_DAY - 1) = "9999-12-31T23:59:59.999999".
Proof. vm_compute. reflexivity. Qed.

Example isoformat_min : isoformat 0 = "0001-01-01T00:00:00".
Proof. vm_compute. reflexivity. Qed.

Example sqlite_datetime_eve :
  sqlite_datetime
    (of_fields {| year := 2023; month := 12; day := 31; hour := 23;
                  minute := 0; second := 0; microsecond := 999999 |})
  = "2023-12-31 23:00:00".
Proof. vm_compute. reflexivity. Qed.

(** What a [REAL] column gives back: [-0.0] comes back as [0.0], whose
    inverse is plus infinity, NaN comes back as [None], and a score such as
    [0.42] comes back as it is. *)
Example bind_real_values :
  bind_real (-0)%float = Some 0%float /\
  option_map (fun x => PrimFloat.div 1 x) (bind_real (-0)%float)
  = Some infinity /\
  (PrimFloat.div 1 (-0) = neg_infinity)%float /\
  bind_real nan = None /\
  bind_real 0.42%float = Some 0.42%float /\
  bind_real infinity = Some infinity.
Proof. vm_compute. repeat split. Qed.

(** The status codes that [sqlite3] binds are those of 64 signed bits. *)
Example sqlite_integer_ok_values :
  sqlite_integer_ok 200 = true /\
  sqlite_integer_ok (2 ^ 63 - 1) = true /\
  sqlite_integer_ok (2 ^ 63) = false /\
  sqlite_integer_ok (- 2 ^ 63) = true /\
  sqlite_integer_ok (- 2 ^ 63 - 1) = false.
Proof. vm_compute. repeat split. Qed.

(** ** ISO texts order as the instants they denote *)

Module DatetimeFacts.
Import DatetimeKeys.

Lemma lex_compare (B hi lo hi' lo' : Z) :
  0 <= lo < B -> 0 <= lo' < B ->
  (hi * B + lo ?= hi' * B + lo') =
  match hi ?= hi' with Eq => lo ?= lo' | c => c end.
Proof.
  intros Hlo Hlo'.
  destruct (Z.compare_spec hi hi') as [E | L | G].
  - subst. destruct (Z.compare_spec lo lo'); 
      [apply Z.compare_eq_iff | apply Z.compare_lt_iff | apply Z.compare_gt_iff]; lia.
  - apply Z.compare_lt_iff. nia.
  - apply Z.compare_gt_iff. nia.
Qed.

Lemma digit_compare (x y : Z) :
  Ascii.compare (digit x) (digit y) = (x mod 10 ?= y mod 10).
Proof.
  unfold digit, Ascii.compare.
  assert (Hx := Z.mod_pos_bound x 10 ltac:(lia)).
  assert (Hy := Z.mod_pos_bound y 10 ltac:(lia)).
  rewrite !N_ascii_embedding by lia.
  rewrite Z2N.inj_compare by lia.
  apply Z.add_compare_mono_l.
Qed.

Lemma zfill_compare (w : nat) : forall (x y : Z) (s s' : string),
  0 <= x -> 0 <= y ->
  String.compare (zfill w x ++ s) (zfill w y ++ s') =
  match x mod 10 ^ Z.of_nat w ?= y mod 10 ^ Z.of_nat w with
  | Eq => String.compare s s'
  | c => c
  end.
Proof.
  induction w as [| w IH]; intros x y s s' Hx Hy.
  - simpl. rewrite !Z.mod_1_r. reflexivity.
  - cbn [zfill append String.compare].
    rewrite digit_compare, IH by assumption.
    rewrite Nat2Z.inj_succ, Z.pow_succ_r by lia.
    set (P := 10 ^ Z.of_nat w).
    assert (HP : 0 < P) by (apply Z.pow_pos_nonneg; lia).
    rewrite (Z.mul_comm 10 P).
    rewrite !(Z.rem_mul_r _ P 10) by lia.
    rewrite (Z.add_comm (x mod P)), (Z.add_comm (y mod P)).
    rewrite !(Z.mul_comm P).
    rewrite lex_compare by (apply Z.mod_pos_bound; lia).
    destruct ((x / P) mod 10 ?= (y / P) mod 10); reflexivity.
Qed.

Lemma compare_same_head (c : ascii) (s s' : string) :
  String.compare (String c s) (String c s') = String.compare s s'.
Proof.
  cbn [String.compare]. unfold Ascii.compare. rewrite N.compare_refl. reflexivity.
Qed.

Lemma append_empty (s : string) : s ++ "" = s.
Proof. induction s as [| c s IH]; cbn [append]; [| rewrite IH]; reflexivity. Qed.

Lemma fraction_compare (x y : Z) :
  0 <= x < 1000000 -> 0 <= y < 1000000 ->
  String.compare (if x =? 0 then "" else "." ++ zfill 6 x)
                 (if y =? 0 then "" else "." ++ zfill 6 y) = (x ?= y).
Proof.
  intros Hx Hy.
  destruct (Z.eqb_spec x 0) as [-> | Nx], (Z.eqb_spec y 0) as [-> | Ny].
  - reflexivity.
  - cbn [append String.compare]. symmetry. apply Z.compare_lt_iff. lia.
  - cbn [append String.compare]. symmetry. apply Z.compare_gt_iff. lia.
  - cbn [append]. rewrite compare_same_head.
    rewrite <- (append_empty (zfill 6 x)), <- (append_empty (zfill 6 y)).
    rewrite zfill_compare by lia.
    change (10 ^ Z.of_nat 6) with 1000000.
    rewrite !Z.mod_small by lia.
    destruct (x ?= y); reflexivity.
Qed.

Lemma iso_text_compare (f g : fields) :
  valid_fields f -> valid_fields g ->
  String.compare (iso_text f) (iso_text g) = (sort_key f ?= sort_key g).
Proof.
  intros (Hy & Hm & Hd & HH & HM & HS & Hu) (Hy' & Hm' & Hd' & HH' & HM' & HS' & Hu').
  unfold iso_text, sort_key.
  repeat (rewrite zfill_compare by lia;
          try (cbn [append]; rewrite compare_same_head)).
  rewrite fraction_compare by lia.
  change (10 ^ Z.of_nat 4) with 10000. change (10 ^ Z.of_nat 2) with 100.
  rewrite !Z.mod_small by lia.
  rewrite (lex_compare 1000000) by lia.
  repeat rewrite (lex_compare 100) by lia.
  repeat match goal with
         | |- context [Z.compare ?a ?b] => destruct (Z.compare a b)
         end; reflexivity.
Qed.

Lemma days_ok_spec (n : nat) : forall i key,
  days_ok i key n = true ->
  key = date_key (_ord2ymd (i - 1)) ->
  forall j, i <= j < i + Z.of_nat n ->
    ymd_ok (_ord2ymd j) = true /\
    date_key (_ord2ymd (j - 1)) < date_key (_ord2ymd j).
Proof.
  induction n as [| n IH]; intros i key H Hkey j Hj.
  - lia.
  - cbn [days_ok] in H.
    apply andb_true_iff in H as [H Hrest].
    apply andb_true_iff in H as [Hok Hlt].
    destruct (Z.eq_dec j i) as [-> | Hne].
    + split; [assumption |]. subst key. apply Z.ltb_lt. assumption.
    + apply (IH (i + 1) _ Hrest); [| lia].
      f_equal. f_equal. lia.
Qed.

(** The calendar repeats every 400 years. *)
Lemma _ord2ymd_shift (n q : Z) :
  _ord2ymd (n + _DI400Y * q) =
  let '(y, m, d) := _ord2ymd n in (y + 400 * q, m, d).
Proof.
  unfold _ord2ymd.
  replace (n + _DI400Y * q - 1) with (n - 1 + q * _DI400Y) by lia.
  rewrite Z.div_add, Z.mod_add by (unfold _DI400Y; lia).
  cbv zeta.
  repeat match goal with
         | |- context [if ?b then _ else _] => destruct b
         end; f_equal; try f_equal; lia.
Qed.

(** One 400-year cycle, from 0001-01-01 to 0400-12-31. *)
Lemma cycle_checked :
  days_ok 1 (date_key (_ord2ymd 0)) (Z.to_nat _DI400Y) = true.
Proof. vm_compute. reflexivity. Qed.

Lemma date_key_shift (ymd : Z * Z * Z) (q : Z) :
  date_key (let '(y, m, d) := ymd in (y + 400 * q, m, d))
  = date_key ymd + 4000000 * q.
Proof. destruct ymd as [[y m] d]. unfold date_key. lia. Qed.

(** Every day has a well-formed month and day, and a key above that of
    the day before. *)
Lemma _ord2ymd_step (j : Z) :
  (let '(y, m, d) := _ord2ymd j in 1 <= m <= 12 /\ 1 <= d <= 31)
  /\ date_key (_ord2ymd (j - 1)) < date_key (_ord2ymd j).
Proof.
  set (q := (j - 1) / _DI400Y).
  set (r := (j - 1) mod _DI400Y + 1).
  assert (Hr : 1 <= r < 1 + Z.of_nat (Z.to_nat _DI400Y)).
  { unfold r. pose proof (Z.mod_pos_bound (j - 1) _DI400Y eq_refl).
    rewrite Z2Nat.id by (unfold _DI400Y; lia). lia. }
  assert (Hj : j = r + _DI400Y * q).
  { unfold r, q. pose proof (Z.div_mod (j - 1) _DI400Y ltac:(unfold _DI400Y; lia)).
    lia. }
  destruct (days_ok_spec _ _ _ cycle_checked eq_refl r Hr) as [Hok Hlt].
  replace (j - 1) with (r - 1 + _DI400Y * q) by lia.
  rewrite Hj, !_ord2ymd_shift, !date_key_shift.
  split; [| lia].
  destruct (_ord2ymd r) as [[y m] d]. unfold ymd_ok in Hok.
  repeat (apply andb_true_iff in Hok as [Hok ?]). lia.
Qed.

Lemma date_key_mono (i j : Z) :
  i < j -> date_key (_ord2ymd i) < date_key (_ord2ymd j).
Proof.
  intros Hij. replace j with (i + 1 + Z.of_nat (Z.to_nat (j - i - 1)))
    by (rewrite Z2Nat.id; lia).
  induction (Z.to_nat (j - i - 1)) as [| k IH].
  - pose proof (proj2 (_ord2ymd_step (i + 1))) as H.
    replace (i + 1 - 1) with i in H by lia.
    replace (i + 1 + Z.of_nat 0) with (i + 1) by lia. exact H.
  - pose proof (proj2 (_ord2ymd_step (i + 1 + Z.of_nat (S k)))) as H.
    replace (i + 1 + Z.of_nat (S k) - 1) with (i + 1 + Z.of_nat k) in H by lia.
    lia.
Qed.

Lemma sort_key_split (f : fields) :
  sort_key f = date_key (year f, month f, day f) * 1000000000000 + time_key f.
Proof. unfold sort_key, date_key, time_key. lia. Qed.

Lemma to_fields_valid (t : datetime) :
  in_range t -> valid_fields (to_fields t).
Proof.
  unfold in_range, to_fields, MAXORDINAL. intros Ht.
  set (j := t / US_PER_DAY + 1).
  assert (Hj : 1 <= j <= 3652059).
  { unfold j, US_PER_DAY, US_PER_SECOND in *. Z.div_mod_to_equations. lia. }
  pose proof (proj1 (_ord2ymd_step j)) as Hmd.
  assert (Hlo : date_key (_ord2ymd 1) <= date_key (_ord2ymd j)).
  { destruct (Z.eq_dec j 1) as [-> | ?]; [lia |].
    apply Z.lt_le_incl, date_key_mono. lia. }
  assert (Hhi : date_key (_ord2ymd j) <= date_key (_ord2ymd 3652059)).
  { destruct (Z.eq_dec j 3652059) as [-> | ?]; [lia |].
    apply Z.lt_le_incl, date_key_mono. lia. }
  change (date_key (_ord2ymd 1)) with 10101 in Hlo.
  change (date_key (_ord2ymd 3652059)) with 99991231 in Hhi.
  destruct (_ord2ymd j) as [[y m] d]. unfold date_key in Hlo, Hhi.
  unfold valid_fields; cbn [year month day hour minute second microsecond].
  unfold US_PER_DAY, US_PER_HOUR, US_PER_MINUTE, US_PER_SECOND in *.
  repeat split; try lia; Z.div_mod_to_equations; lia.
Qed.

Lemma time_key_compare (a b : datetime) :
  0 <= a < US_PER_DAY -> 0 <= b < US_PER_DAY ->
  (((a / US_PER_HOUR * 100 + a mod US_PER_HOUR / US_PER_MINUTE) * 100
     + a mod US_PER_MINUTE / US_PER_SECOND) * 1000000 + a mod US_PER_SECOND
   ?=
   ((b / US_PER_HOUR * 100 + b mod US_PER_HOUR / US_PER_MINUTE) * 100
     + b mod US_PER_MINUTE / US_PER_SECOND) * 1000000 + b mod US_PER_SECOND)
  = (a ?= b).
Proof.
  unfold US_PER_DAY, US_PER_HOUR, US_PER_MINUTE, US_PER_SECOND. intros Ha Hb.
  destruct (Z.compare_spec a b) as [-> | L | G].
  - apply Z.compare_refl.
  - apply Z.compare_lt_iff. Z.div_mod_to_equations. lia.
  - apply Z.compare_gt_iff. Z.div_mod_to_equations. lia.
Qed.

Lemma date_key_compare (i j : Z) :
  (date_key (_ord2ymd i) ?= date_key (_ord2ymd j)) = (i ?= j).
Proof.
  destruct (Z.compare_spec i j) as [-> | L | G].
  - apply Z.compare_refl.
  - apply Z.compare_lt_iff, date_key_mono, L.
  - apply Z.compare_gt_iff, date_key_mono, G.
Qed.

Lemma sort_key_compare (a b : datetime) :
  in_range a -> in_range b ->
  (sort_key (to_fields a) ?= sort_key (to_fields b)) = (a ?= b).
Proof.
  intros Ha Hb.
  pose proof (to_fields_valid a Ha) as Va. pose proof (to_fields_valid b Hb) as Vb.
  rewrite !sort_key_split.
  rewrite lex_compare
    by (unfold valid_fields, time_key in *; lia).
  unfold to_fields in *.
  pose proof (date_key_compare (a / US_PER_DAY + 1) (b / US_PER_DAY + 1)) as Hd.
  destruct (_ord2ymd (a / US_PER_DAY + 1)) as [[ya ma] da].
  destruct (_ord2ymd (b / US_PER_DAY + 1)) as [[yb mb] db].
  unfold time_key; cbn [year month day hour minute second microsecond].
  rewrite Hd, !(Z.add_comm _ 1), Z.add_compare_mono_l.
  assert (HD : 0 < US_PER_DAY) by reflexivity.
  rewrite time_key_compare by (apply Z.mod_pos_bound; assumption).
  rewrite (Z.div_mod a US_PER_DAY) at 3 by lia.
  rewrite (Z.div_mod b US_PER_DAY) at 3 by lia.
  rewrite !(Z.mul_comm US_PER_DAY).
  rewrite lex_compare by (apply Z.mod_pos_bound; assumption).
  reflexivity.
Qed.

(** ISO texts of datetimes order as the instants do. *)
Lemma isoformat_compare (a b : datetime) :
  in_range a -> in_range b ->
  String.compare (isoformat a) (isoformat b) = (a ?= b).
Proof.
  intros Ha Hb.
  change (isoformat a) with (iso_text (to_fields a)).
  change (isoformat b) with (iso_text (to_fields b)).
  rewrite iso_text_compare by (apply to_fields_valid; assumption).
  apply sort_key_compare; assumption.
Qed.

Lemma isoformat_ltb (a b : datetime) :
  in_range a -> in_range b ->
  String.ltb (isoformat a) (isoformat b) = (a <? b).
Proof.
  intros Ha Hb. unfold String.ltb, Z.ltb.
  rewrite isoformat_compare by assumption. reflexivity.
Qed.

End DatetimeFacts.

(** ** Statements on one table *)

Section TableFacts.
Context {R : Type} (key : R -> string).

Lemma fetchone_by_key_key (k : string) (t : list R) (r : R) :
  fetchone_by_key key k t = Some r -> key r = k /\ In r t.
Proof.
  unfold fetchone_by_key. intros H. apply find_some in H as [Hin Hk].
  apply String.eqb_eq in Hk. auto.
Qed.

Lemma fetchone_by_key_none (k : string) (t : list R) :
  fetchone_by_key key k t = None <-> ~ In k (map key t).
Proof.
  unfold fetchone_by_key. induction t as [| x t IH]; cbn [find map In].
  - tauto.
  - destruct (String.eqb_spec (key x) k) as [E | N].
    + split; [discriminate | tauto].
    + tauto.
Qed.

Lemma fetchone_by_key_app (k : string) (t u : list R) :
  fetchone_by_key key k (t ++ u) =
  match fetchone_by_key key k t with
  | Some r => Some r
  | None => fetchone_by_key key k u
  end.
Proof.
  unfold fetchone_by_key. induction t as [| x t IH]; cbn [find app].
  - reflexivity.
  - destruct (key x =? k)%string; [reflexivity | exact IH].
Qed.

Lemma fetchone_insert_same (r : R) (t : list R) :
  fetchone_by_key key (key r) (insert_or_replace key r t) = Some r.
Proof.
  unfold insert_or_replace. rewrite fetchone_by_key_app.
  assert (H : fetchone_by_key key (key r)
                (filter (fun x => negb (key x =? key r)%string) t) = None).
  { apply fetchone_by_key_none. rewrite in_map_iff. intros (x & Hk & Hin).
    apply filter_In in Hin as [_ Hx]. rewrite Hk, String.eqb_refl in Hx.
    discriminate. }
  rewrite H. unfold fetchone_by_key. cbn [find].
  rewrite String.eqb_refl. reflexivity.
Qed.

Lemma fetchone_insert_other (k : string) (r : R) (t : list R) :
  k <> key r ->
  fetchone_by_key key k (insert_or_replace key r t) = fetchone_by_key key k t.
Proof.
  intros Hk. unfold insert_or_replace. rewrite fetchone_by_key_app.
  assert (Hlast : fetchone_by_key key k [r] = None).
  { unfold fetchone_by_key. cbn [find].
    destruct (String.eqb_spec (key r) k); [congruence | reflexivity]. }
  rewrite Hlast.
  assert (H : fetchone_by_key key k
                (filter (fun x => negb (key x =? key r)%string) t)
              = fetchone_by_key key k t).
  { unfold fetchone_by_key. induction t as [| x t IH]; cbn [find filter].
    - reflexivity.
    - destruct (String.eqb_spec (key x) (key r)) as [E | N]; cbn [negb find].
      + destruct (String.eqb_spec (key x) k); [congruence | exact IH].
      + destruct (key x =? k)%string; [reflexivity | exact IH]. }
  rewrite H. destruct (fetchone_by_key key k t); reflexivity.
Qed.

Lemma fetchone_update (k k' : string) (f : R -> R) (t : list R) :
  (forall r, key (f r) = key r) ->
  fetchone_by_key key k' (update_by_key key k f t) =
  if (k' =? k)%string then option_map f (fetchone_by_key key k' t)
  else fetchone_by_key key k' t.
Proof.
  intros Hf. unfold fetchone_by_key, update_by_key.
  induction t as [| x t IH]; cbn [find map option_map].
  - destruct (k' =? k)%string; reflexivity.
  - destruct (String.eqb_spec (key x) k) as [E | N].
    + rewrite Hf. destruct (String.eqb_spec (key x) k') as [E' | N'].
      * subst k. rewrite E', String.eqb_refl. reflexivity.
      * exact IH.
    + destruct (String.eqb_spec (key x) k') as [E' | N'].
      * destruct (String.eqb_spec k' k); [congruence | reflexivity].
      * exact IH.
Qed.

Lemma keys_update (k : string) (f : R -> R) (t : list R) :
  (forall r, key (f r) = key r) ->
  map key (update_by_key key k f t) = map key t.
Proof.
  intros Hf. unfold update_by_key. rewrite map_map. apply map_ext.
  intros r. destruct (key r =? k)%string; [apply Hf | reflexivity].
Qed.

Lemma NoDup_keys_filter (p : R -> bool) (t : list R) :
  NoDup (map key t) -> NoDup (map key (filter p t)).
Proof.
  induction t as [| x t IH]; cbn [map filter]; intros H.
  - constructor.
  - inversion H as [| ? ? Hx Ht]; subst.
    destruct (p x); cbn [map]; [constructor |]; auto.
    rewrite in_map_iff in *. intros (y & Hy & Hin).
    apply Hx. exists y. apply filter_In in Hin. tauto.
Qed.

Lemma Forall_insert (P : R -> Prop) (r : R) (t : list R) :
  P r -> Forall P t -> Forall P (insert_or_replace key r t).
Proof.
  intros Hr Ht. unfold insert_or_replace. apply Forall_app. split.
  - rewrite Forall_forall in *. intros x Hx. apply filter_In in Hx. apply Ht, Hx.
  - constructor; [exact Hr | constructor].
Qed.

Lemma Forall_update (P Q : R -> Prop) (k : string) (f : R -> R) (t : list R) :
  (forall r, P r -> Q (f r)) -> (forall r, P r -> Q r) ->
  Forall P t -> Forall Q (update_by_key key k f t).
Proof.
  intros Hf Hid Ht. unfold update_by_key. rewrite Forall_map.
  eapply Forall_impl; [| exact Ht]. cbn beta. intros r Hr.
  destruct (key r =? k)%string; auto.
Qed.

Lemma Forall_delete (P : R -> Prop) (p : R -> bool) (t : list R) :
  Forall P t -> Forall P (delete_where p t).
Proof.
  intros Ht. unfold delete_where. rewrite Forall_forall in *.
  intros x Hx. apply filter_In in Hx. apply Ht, Hx.
Qed.

Lemma NoDup_keys_insert (r : R) (t : list R) :
  NoDup (map key t) -> NoDup (map key (insert_or_replace key r t)).
Proof.
  intros H. unfold insert_or_replace. rewrite map_app. cbn [map].
  apply NoDup_app.
  - apply NoDup_keys_filter, H.
  - constructor; [intros [] | constructor].
  - intros k Hk [<- | []]. rewrite in_map_iff in Hk.
    destruct Hk as (x & Hx & Hin). apply filter_In in Hin as [_ Hne].
    rewrite Hx, String.eqb_refl in Hne. discriminate.
Qed.
End TableFacts.

(** ** The reads, step by step *)

Ltac split_all := repeat match goal with |- _ /\ _ => split end.

Ltac run_py :=
  cbv [bind ret raise gets execute execute_rowcount commit datetime_now
       sqlite_now timedelta_days datetime_sub].

Lemma get_epss_score_run (cve_id : string) (max_age_days : Z) (w : world) :
  get_epss_score cve_id max_age_days w =
  match epss_entry (store w) cve_id with
  | None => (Return None, w)
  | Some r =>
      if timedelta_days_ok max_age_days then
        if now w - Epss.cached_at r >? days max_age_days
        then (Return None, tick w)
        else
          (Return (Some {| Score.epss := Epss.epss_score r;
                           Score.percentile := Epss.percentile r;
                           Score.model_version := Epss.model_version r;
                           Score.score_date := Epss.score_date r |}),
           with_store (with_epss_cache
             (update_by_key Epss.cve_id cve_id
                (Epss.set_last_accessed (now (tick w))))) (tick (tick w)))
      else (Raise OverflowError, tick w)
  end.
Proof.
  unfold get_epss_score, epss_entry, now. run_py.
  destruct (fetchone_by_key Epss.cve_id cve_id (epss_cache (store w))) as [r |];
    [| reflexivity].
  destruct (timedelta_days_ok max_age_days); [| reflexivity].
  cbn [store tick ticks wall_clock].
  destruct (wall_clock w (ticks w) - Epss.cached_at r >? days max_age_days);
    reflexivity.
Qed.

Lemma is_in_cisa_kev_run (cve_id : string) (max_age_days : Z) (w : world) :
  is_in_cisa_kev cve_id max_age_days w =
  match kev_entry (store w) cve_id with
  | None => (Return false, w)
  | Some r =>
      if timedelta_days_ok max_age_days then
        if now w - Kev.cached_at r >? days max_age_days
        then (Return false, tick w)
        else
          (Return true,
           with_store (with_cisa_kev_cache
             (update_by_key Kev.cve_id cve_id
                (Kev.set_last_accessed (now (tick w))))) (tick (tick w)))
      else (Raise OverflowError, tick w)
  end.
Proof.
  unfold is_in_cisa_kev, kev_entry, now. run_py.
  destruct (fetchone_by_key Kev.cve_id cve_id (cisa_kev_cache (store w))) as [r |];
    [| reflexivity].
  destruct (timedelta_days_ok max_age_days); [| reflexivity].
  cbn [store tick ticks wall_clock].
  destruct (wall_clock w (ticks w) - Kev.cached_at r >? days max_age_days);
    reflexivity.
Qed.

Lemma get_all_cisa_kev_cves_store (max_age_days : Z) (w : world) :
  store (after (get_all_cisa_kev_cves max_age_days) w) = store w.
Proof.
  unfold after, get_all_cisa_kev_cves. run_py.
  destruct (timedelta_days_ok max_age_days); [| reflexivity].
  destruct (in_rangeb _); reflexivity.
Qed.

(** C10: a read that misses leaves the store as it was.  When
    [get_epss_score] or [is_in_cisa_kev] finds no row, or finds a row older
    than the maximum age, every table is unchanged; [get_all_cisa_kev_cves]
    changes no table whatever it returns. *)
Theorem miss_leaves_store_unchanged
    (w : world) (cve_id : string) (max_age_days : Z) :
  (epss_entry (store w) cve_id = None \/
   (exists r, epss_entry (store w) cve_id = Some r /\
              now w - Epss.cached_at r > days max_age_days) ->
   store (after (get_epss_score cve_id max_age_days) w) = store w)
  /\
  (kev_entry (store w) cve_id = None \/
   (exists r, kev_entry (store w) cve_id = Some r /\
              now w - Kev.cached_at r > days max_age_days) ->
   store (after (is_in_cisa_kev cve_id max_age_days) w) = store w)
  /\
  store (after (get_all_cisa_kev_cves max_age_days) w) = store w
  /\
  ((forall s, result (get_epss_score cve_id max_age_days) w <> Return (Some s)) ->
   store (after (get_epss_score cve_id max_age_days) w) = store w)
  /\
  (result (is_in_cisa_kev cve_id max_age_days) w <> Return true ->
   store (after (is_in_cisa_kev cve_id max_age_days) w) = store w).
Proof.
  split_all.
  - intros H. unfold after. rewrite get_epss_score_run.
    destruct H as [-> | (r & -> & Hold)]; [reflexivity |].
    apply Z.gtb_gt in Hold. rewrite Hold.
    destruct (timedelta_days_ok max_age_days); reflexivity.
  - intros H. unfold after. rewrite is_in_cisa_kev_run.
    destruct H as [-> | (r & -> & Hold)]; [reflexivity |].
    apply Z.gtb_gt in Hold. rewrite Hold.
    destruct (timedelta_days_ok max_age_days); reflexivity.
  - apply get_all_cisa_kev_cves_store.
  - unfold result, after. rewrite get_epss_score_run.
    destruct (epss_entry (store w) cve_id) as [r |]; [| reflexivity].
    destruct (timedelta_days_ok max_age_days); [| reflexivity].
    destruct (_ >? _); [reflexivity |].
    intros H. exfalso. eapply H. reflexivity.
  - unfold result, after. rewrite is_in_cisa_kev_run.
    destruct (kev_entry (store w) cve_id) as [r |]; [| reflexivity].
    destruct (timedelta_days_ok max_age_days); [| reflexivity].
    destruct (_ >? _); [reflexivity |].
    intros H. exfalso. apply H. reflexivity.
Qed.

Lemma gtb_false (a b : Z) : a <= b -> (a >? b) = false.
Proof. intros H. rewrite Z.gtb_ltb. apply Z.ltb_ge. exact H. Qed.

Lemma get_cache_stats_store (w : world) :
  store (after get_cache_stats w) = store w.
Proof. reflexivity. Qed.

Lemma same_epss_fields_touch (t : datetime) (r : Epss.row) :
  same_epss_fields r (Epss.set_last_accessed t r).
Proof. repeat split. Qed.

Lemma same_kev_fields_touch (t : datetime) (r : Kev.row) :
  same_kev_fields r (Kev.set_last_accessed t r).
Proof. repeat split. Qed.

(** C5: reading a fresh entry sets its [last_accessed] to the time of the
    read and changes nothing else: the entry keeps its [cached_at] and its
    other fields, every other row and every other table stays as it was.
    [get_cache_stats] leaves every table unchanged. *)
Theorem read_touches_only_last_accessed
    (w : world) (cve_id : string) (max_age_days : Z) :
  timedelta_days_ok max_age_days = true ->
  (forall r, epss_entry (store w) cve_id = Some r ->
     now w - Epss.cached_at r <= days max_age_days ->
     let d' := store (after (get_epss_score cve_id max_age_days) w) in
     (exists r', epss_entry d' cve_id = Some r' /\
        same_epss_fields r r' /\
        Epss.cached_at r' = Epss.cached_at r /\
        Epss.last_accessed r' = now (tick w)) /\
     (forall other, other <> cve_id ->
        epss_entry d' other = epss_entry (store w) other) /\
     map Epss.cve_id (epss_cache d') = map Epss.cve_id (epss_cache (store w)) /\
     map Epss.cached_at (epss_cache d') = map Epss.cached_at (epss_cache (store w)) /\
     cisa_kev_cache d' = cisa_kev_cache (store w) /\
     api_call_log d' = api_call_log (store w) /\
     sqlite_sequence d' = sqlite_sequence (store w) /\
     metadata d' = metadata (store w))
  /\
  (forall r, kev_entry (store w) cve_id = Some r ->
     now w - Kev.cached_at r <= days max_age_days ->
     let d' := store (after (is_in_cisa_kev cve_id max_age_days) w) in
     (exists r', kev_entry d' cve_id = Some r' /\
        same_kev_fields r r' /\
        Kev.cached_at r' = Kev.cached_at r /\
        Kev.last_accessed r' = now (tick w)) /\
     (forall other, other <> cve_id ->
        kev_entry d' other = kev_entry (store w) other) /\
     map Kev.cve_id (cisa_kev_cache d') = map Kev.cve_id (cisa_kev_cache (store w)) /\
     map Kev.cached_at (cisa_kev_cache d') = map Kev.cached_at (cisa_kev_cache (store w)) /\
     epss_cache d' = epss_cache (store w) /\
     api_call_log d' = api_call_log (store w) /\
     sqlite_sequence d' = sqlite_sequence (store w) /\
     metadata d' = metadata (store w))
  /\
  store (after get_cache_stats w) = store w.
Proof.
  intros Hok. split; [| split].
  - intros r Hr Hfresh d'. subst d'. unfold after.
    rewrite get_epss_score_run, Hr, Hok.
    replace (now w - Epss.cached_at r >? days max_age_days) with false
      by (symmetry; apply gtb_false; lia).
    unfold epss_entry in *. simpl.
    repeat match goal with |- _ /\ _ => split end; try reflexivity.
    + exists (Epss.set_last_accessed (now (tick w)) r).
      rewrite fetchone_update by reflexivity.
      rewrite String.eqb_refl, Hr. repeat split.
    + intros other Hne. rewrite fetchone_update by reflexivity.
      destruct (String.eqb_spec other cve_id); [contradiction | reflexivity].
    + apply keys_update. reflexivity.
    + unfold update_by_key. rewrite map_map. apply map_ext. intros x.
      destruct (Epss.cve_id x =? cve_id)%string; reflexivity.
  - intros r Hr Hfresh d'. subst d'. unfold after.
    rewrite is_in_cisa_kev_run, Hr, Hok.
    replace (now w - Kev.cached_at r >? days max_age_days) with false
      by (symmetry; apply gtb_false; lia).
    unfold kev_entry in *. simpl.
    repeat match goal with |- _ /\ _ => split end; try reflexivity.
    + exists (Kev.set_last_accessed (now (tick w)) r).
      rewrite fetchone_update by reflexivity.
      rewrite String.eqb_refl, Hr. repeat split.
    + intros other Hne. rewrite fetchone_update by reflexivity.
      destruct (String.eqb_spec other cve_id); [contradiction | reflexivity].
    + apply keys_update. reflexivity.
    + unfold update_by_key. rewrite map_map. apply map_ext. intros x.
      destruct (Kev.cve_id x =? cve_id)%string; reflexivity.
  - apply get_cache_stats_store.
Qed.

(** ** The upserts *)

Lemma cache_epss_score_run (cve_id : string) (epss_score percentile : float)
    (model_version score_date : string) (w : world) :
  cache_epss_score cve_id epss_score percentile model_version score_date w =
  (Return tt,
   with_store (with_epss_cache (insert_or_replace Epss.cve_id
     {| Epss.cve_id := cve_id;
        Epss.epss_score := bind_real epss_score;
        Epss.percentile := bind_real percentile;
        Epss.model_version := model_version;
        Epss.score_date := score_date;
        Epss.cached_at := now w;
        Epss.last_accessed := now w |})) (tick w)).
Proof. reflexivity. Qed.

Lemma epss_entry_after_cache (cve_id : string) (epss_score percentile : float)
    (model_version score_date : string) (w : world) :
  epss_entry
    (store (after (cache_epss_score cve_id epss_score percentile
                     model_version score_date) w)) cve_id =
  Some {| Epss.cve_id := cve_id;
          Epss.epss_score := bind_real epss_score;
          Epss.percentile := bind_real percentile;
          Epss.model_version := model_version;
          Epss.score_date := score_date;
          Epss.cached_at := now w;
          Epss.last_accessed := now w |}.
Proof.
  unfold after. rewrite cache_epss_score_run. unfold epss_entry. simpl.
  apply (fetchone_insert_same Epss.cve_id
    {| Epss.cve_id := cve_id; Epss.epss_score := bind_real epss_score;
       Epss.percentile := bind_real percentile;
       Epss.model_version := model_version; Epss.score_date := score_date;
       Epss.cached_at := now w; Epss.last_accessed := now w |}).
Qed.


(** A read of an entry whose age is within the maximum age returns its
    fields. *)
Lemma get_epss_score_hit (cve_id : string) (max_age_days : Z) (w : world)
    (r : Epss.row) :
  epss_entry (store w) cve_id = Some r ->
  timedelta_days_ok max_age_days = true ->
  now w - Epss.cached_at r <= days max_age_days ->
  result (get_epss_score cve_id max_age_days) w =
  Return (Some {| Score.epss := Epss.epss_score r;
                  Score.percentile := Epss.percentile r;
                  Score.model_version := Epss.model_version r;
                  Score.score_date := Epss.score_date r |}).
Proof.
  intros Hr Hok Hfresh. unfold result.
  rewrite get_epss_score_run, Hr, Hok, gtb_false by exact Hfresh. reflexivity.
Qed.

Lemma get_epss_score_stale (cve_id : string) (max_age_days : Z) (w : world)
    (r : Epss.row) :
  epss_entry (store w) cve_id = Some r ->
  timedelta_days_ok max_age_days = true ->
  now w - Epss.cached_at r > days max_age_days ->
  result (get_epss_score cve_id max_age_days) w = Return None.
Proof.
  intros Hr Hok Hold. unfold result. apply Z.gtb_gt in Hold.
  rewrite get_epss_score_run, Hr, Hok, Hold. reflexivity.
Qed.


(** C4: after [cache_epss_score("CVE-1", 0.42, 90.0, "v1", "2024-01-01")],
    [get_epss_score("CVE-1", 7)] returns that record at any time up to seven
    days after the write, and returns [None] seven days and one second after
    it. *)
Theorem epss_round_trip (w : world) :
  let w1 := after (cache_epss_score "CVE-1" 0.42 90.0 "v1" "2024-01-01") w in
  (forall n : nat,
     now (later n w1) - now w <= days 7 ->
     result (get_epss_score "CVE-1" 7) (later n w1) =
     Return (Some {| Score.epss := Some 0.42%float;
                     Score.percentile := Some 90.0%float;
                     Score.model_version := "v1";
                     Score.score_date := "2024-01-01" |})) /\
  (forall n : nat,
     now (later n w1) = now w + days 7 + seconds 1 ->
     result (get_epss_score "CVE-1" 7) (later n w1) = Return None).
Proof.
  intros w1. split; intros n Hn.
  - pose proof (epss_entry_after_cache "CVE-1" 0.42 90.0 "v1" "2024-01-01" w)
      as Hr.
    exact (get_epss_score_hit "CVE-1" 7 (later n w1) _ Hr eq_refl Hn).
  - pose proof (epss_entry_after_cache "CVE-1" 0.42 90.0 "v1" "2024-01-01" w)
      as Hr.
    apply (get_epss_score_stale "CVE-1" 7 (later n w1) _ Hr eq_refl).
    cbn [Epss.cached_at]. rewrite Hn.
    unfold days, seconds, US_PER_DAY, US_PER_SECOND. lia.
Qed.

(** ** The sweep *)

Lemma in_rangeb_true (t : datetime) : in_range t -> in_rangeb t = true.
Proof.
  unfold in_range, in_rangeb. intros [H1 H2].
  apply andb_true_iff. split; [apply Z.leb_le | apply Z.ltb_lt]; assumption.
Qed.

(** The text comparison [cached_at < cutoff] of the two DELETE statements,
    read on the instants. *)
Lemma expired_text_iff (cached_at now_ : datetime) (max_age_days : Z) :
  in_range cached_at -> in_range (now_ - days max_age_days) ->
  sql_text_lt (isoformat cached_at) (isoformat (now_ - days max_age_days))
  = (now_ - cached_at >? days max_age_days).
Proof.
  intros Hc Hcut. unfold sql_text_lt.
  rewrite DatetimeFacts.isoformat_ltb by assumption.
  rewrite Z.gtb_ltb.
  destruct (Z.ltb_spec cached_at (now_ - days max_age_days));
    destruct (Z.ltb_spec (days max_age_days) (now_ - cached_at)); lia || reflexivity.
Qed.

Lemma clear_expired_cache_run (e k : Z) (w : world) :
  timedelta_days_ok e = true -> timedelta_days_ok k = true ->
  in_range (now w - days e) -> in_range (now (tick w) - days k) ->
  let epss_expired r :=
    sql_text_lt (isoformat (Epss.cached_at r)) (isoformat (now w - days e)) in
  let kev_expired r :=
    sql_text_lt (isoformat (Kev.cached_at r))
                (isoformat (now (tick w) - days k)) in
  clear_expired_cache e k w =
  (Return {| Swept.epss_deleted :=
               rowcount_where epss_expired (epss_cache (store w));
             Swept.kev_deleted :=
               rowcount_where kev_expired (cisa_kev_cache (store w)) |},
   with_store (with_cisa_kev_cache (delete_where kev_expired))
     (with_store (with_epss_cache (delete_where epss_expired))
        (tick (tick w)))).
Proof.
  intros He Hk Hce Hck. unfold clear_expired_cache. run_py.
  apply in_rangeb_true in Hce, Hck. unfold now in *.
  rewrite He, Hk. simpl. cbn [tick ticks wall_clock store] in *.
  rewrite Hce. simpl. rewrite Hck. reflexivity.
Qed.

(** C6: [clear_expired_cache] deletes exactly the EPSS entries older than
    the EPSS maximum age and the KEV entries older than the KEV maximum age,
    leaves the other tables as they were and returns the two numbers of
    deleted entries; when every EPSS entry is older than the maximum age
    (three entries ten days old against seven days), all are deleted and
    [epss_deleted] is their number. *)
Theorem sweep_deletes_exactly_the_expired
    (w : world) (epss_max_age_days kev_max_age_days : Z) :
  stamps_in_range (store w) ->
  timedelta_days_ok epss_max_age_days = true ->
  timedelta_days_ok kev_max_age_days = true ->
  in_range (now w - days epss_max_age_days) ->
  in_range (now (tick w) - days kev_max_age_days) ->
  let epss_old r := now w - Epss.cached_at r >? days epss_max_age_days in
  let kev_old r := now (tick w) - Kev.cached_at r >? days kev_max_age_days in
  let sweep := clear_expired_cache epss_max_age_days kev_max_age_days in
  let d := store w in
  let d' := store (after sweep w) in
  epss_cache d' = filter (fun r => negb (epss_old r)) (epss_cache d) /\
  cisa_kev_cache d' = filter (fun r => negb (kev_old r)) (cisa_kev_cache d) /\
  api_call_log d' = api_call_log d /\
  sqlite_sequence d' = sqlite_sequence d /\
  metadata d' = metadata d /\
  result sweep w =
    Return {| Swept.epss_deleted :=
                Z.of_nat (List.length (filter epss_old (epss_cache d)));
              Swept.kev_deleted :=
                Z.of_nat (List.length (filter kev_old (cisa_kev_cache d))) |} /\
  (Forall (fun r => now w - Epss.cached_at r > days epss_max_age_days)
          (epss_cache d) ->
   epss_cache d' = [] /\
   exists n, result sweep w =
             Return {| Swept.epss_deleted := Z.of_nat (List.length (epss_cache d));
                       Swept.kev_deleted := n |}).
Proof.
  intros [Hse Hsk] He Hk Hce Hck epss_old kev_old sweep d d'.
  subst d' sweep. unfold after, result.
  rewrite clear_expired_cache_run by assumption. cbv zeta.
  remember (fun r => sql_text_lt (isoformat (Epss.cached_at r))
              (isoformat (now w - days epss_max_age_days))) as pe eqn:Epe.
  remember (fun r => sql_text_lt (isoformat (Kev.cached_at r))
              (isoformat (now (tick w) - days kev_max_age_days))) as pk eqn:Epk.
  simpl. fold d.
  assert (Ee : forall r, In r (epss_cache d) -> pe r = epss_old r).
  { intros r Hr. subst pe. apply expired_text_iff; [| exact Hce].
    exact (proj1 (Forall_forall _ _) Hse r Hr). }
  assert (Ek : forall r, In r (cisa_kev_cache d) -> pk r = kev_old r).
  { intros r Hr. subst pk. apply expired_text_iff; [| exact Hck].
    exact (proj1 (Forall_forall _ _) Hsk r Hr). }
  assert (Fe : delete_where pe (epss_cache d)
               = filter (fun r => negb (epss_old r)) (epss_cache d)).
  { unfold delete_where. apply filter_ext_in. intros r Hr. rewrite Ee by exact Hr.
    reflexivity. }
  assert (Fk : delete_where pk (cisa_kev_cache d)
               = filter (fun r => negb (kev_old r)) (cisa_kev_cache d)).
  { unfold delete_where. apply filter_ext_in. intros r Hr. rewrite Ek by exact Hr.
    reflexivity. }
  assert (Re : rowcount_where pe (epss_cache d)
               = Z.of_nat (List.length (filter epss_old (epss_cache d)))).
  { unfold rowcount_where. f_equal. f_equal. apply filter_ext_in. exact Ee. }
  assert (Rk : rowcount_where pk (cisa_kev_cache d)
               = Z.of_nat (List.length (filter kev_old (cisa_kev_cache d)))).
  { unfold rowcount_where. f_equal. f_equal. apply filter_ext_in. exact Ek. }
  rewrite Fe, Fk, Re, Rk.
  split_all; try reflexivity.
  intros Hall.
  assert (Hold : forall r, In r (epss_cache d) -> epss_old r = true).
  { intros r Hr. apply Z.gtb_gt. exact (proj1 (Forall_forall _ _) Hall r Hr). }
  split.
  - rewrite (filter_ext_in _ (fun _ => false)).
    + clear. induction (epss_cache d); [reflexivity | assumption].
    + intros r Hr. rewrite Hold by exact Hr. reflexivity.
  - eexists. do 3 f_equal.
    rewrite (filter_ext_in _ (fun _ => true)).
    + clear. induction (epss_cache d) as [| x l IH]; [reflexivity |].
      cbn [filter List.length]. rewrite IH. reflexivity.
    + exact Hold.
Qed.

(** ** The audit log *)


Section LogFacts.
Context {Dict : Type} (json_dumps : Dict -> option string).

Lemma log_api_call_run (api_type endpoint : string) (parameters : Dict)
    (status_code : Z) (response_time : float) (cached : bool) (w : world) :
  let d := store w in
  let last := Z.max (sqlite_sequence d) (max_rowid (api_call_log d)) in
  log_api_call json_dumps api_type endpoint parameters status_code
    response_time cached w =
  match json_dumps parameters with
  | None => (Raise TypeError, w)
  | Some text =>
      if negb (sqlite_integer_ok status_code)
      then (Raise OverflowError, tick w)
      else if MAX_ROWID <=? last then (Raise OperationalError, tick w)
      else
        (Return tt,
         with_store (fun d =>
           {| epss_cache := epss_cache d; cisa_kev_cache := cisa_kev_cache d;
              api_call_log :=
                (api_call_log d ++
                 [{| Log.id := last + 1;
                     Log.api_type := api_type;
                     Log.endpoint := endpoint;
                     Log.parameters := text;
                     Log.status_code := status_code;
                     Log.response_time := bind_real response_time;
                     Log.cached := cached;
                     Log.timestamp := isoformat (now w) |}])%list;
              sqlite_sequence := last + 1;
              metadata := metadata d |}) (tick w))
  end.
Proof.
  cbv zeta. unfold log_api_call.
  destruct (json_dumps parameters) as [text |]; [| reflexivity].
  run_py. cbn [store tick].
  destruct (negb (sqlite_integer_ok status_code)); [reflexivity |].
  destruct (MAX_ROWID <=? _); reflexivity.
Qed.

(** The calls other than [log_api_call] leave the audit log as it is. *)
Lemma api_call_log_frame (c : call Dict) (w : world) :
  (forall t e p sc rt cd, c <> LogApiCall t e p sc rt cd) ->
  api_call_log (store (perform json_dumps c w)) = api_call_log (store w).
Proof.
  intros Hc. destruct c; cbn [perform]; unfold after;
    try reflexivity.
  - rewrite get_epss_score_run.
    destruct (epss_entry (store w) cve_id); [| reflexivity].
    destruct (timedelta_days_ok max_age_days); [| reflexivity].
    destruct (_ >? _); reflexivity.
  - rewrite is_in_cisa_kev_run.
    destruct (kev_entry (store w) cve_id); [| reflexivity].
    destruct (timedelta_days_ok max_age_days); [| reflexivity].
    destruct (_ >? _); reflexivity.
  - exact (f_equal api_call_log (get_all_cisa_kev_cves_store max_age_days w)).
  - exfalso. eapply Hc. reflexivity.
  - unfold clear_expired_cache. run_py.
    destruct (timedelta_days_ok epss_max_age_days); [| reflexivity].
    destruct (in_rangeb _); [| reflexivity].
    destruct (timedelta_days_ok kev_max_age_days); [| reflexivity].
    cbn [tick ticks wall_clock store].
    destruct (in_rangeb _); reflexivity.
Qed.


End LogFacts.

(** ** The invariant of the caches *)

Lemma well_kept_rows (w : world) :
  well_kept w <->
  steady_clock w /\
  NoDup (map Epss.cve_id (epss_cache (store w))) /\
  NoDup (map Kev.cve_id (cisa_kev_cache (store w))) /\
  Forall (epss_row_ok (now w)) (epss_cache (store w)) /\
  Forall (kev_row_ok (now w)) (cisa_kev_cache (store w)).
Proof.
  unfold well_kept, stamps_in_past, cache_invariant, unique_ids,
    accessed_after_cached, epss_row_ok, kev_row_ok.
  rewrite !Forall_forall. split.
  - intros (Hs & (Pe & Pk) & (Ue & Uk) & (Ae & Ak)). split_all; auto.
  - intros (Hs & Ue & Uk & He & Hk). split_all; auto;
      intros r Hr; try apply (He r Hr); apply (Hk r Hr).
Qed.

Lemma epss_row_ok_later (t t' : datetime) (l : list Epss.row) :
  t <= t' -> Forall (epss_row_ok t) l -> Forall (epss_row_ok t') l.
Proof.
  intros Ht. apply Forall_impl. unfold epss_row_ok. intros r [H1 H2]. lia.
Qed.

Lemma kev_row_ok_later (t t' : datetime) (l : list Kev.row) :
  t <= t' -> Forall (kev_row_ok t) l -> Forall (kev_row_ok t') l.
Proof.
  intros Ht. apply Forall_impl. unfold kev_row_ok. intros r [H1 H2]. lia.
Qed.

(** A call that leaves both caches and the clock as they are. *)
Lemma well_kept_frame (w w' : world) :
  well_kept w ->
  wall_clock w' = wall_clock w -> (ticks w <= ticks w')%nat ->
  epss_cache (store w') = epss_cache (store w) ->
  cisa_kev_cache (store w') = cisa_kev_cache (store w) ->
  well_kept w'.
Proof.
  rewrite !well_kept_rows. intros (Hs & Ue & Uk & He & Hk) Hc Ht Ee Ek.
  assert (Hnow : now w <= now w').
  { unfold now. rewrite Hc. apply Hs, Ht. }
  rewrite Ee, Ek. split_all; auto.
  - unfold steady_clock. rewrite Hc. exact Hs.
  - eapply epss_row_ok_later; eassumption.
  - eapply kev_row_ok_later; eassumption.
Qed.

Lemma steady_now_tick (w : world) : steady_clock w -> now w <= now (tick w).
Proof. intros Hs. unfold now. cbn [tick ticks wall_clock]. apply Hs. lia. Qed.

Lemma well_kept_cache_epss_score (cve_id : string) (epss_score percentile : float)
    (model_version score_date : string) (w : world) :
  well_kept w ->
  well_kept (after (cache_epss_score cve_id epss_score percentile
                      model_version score_date) w).
Proof.
  unfold after. rewrite cache_epss_score_run. cbn [snd].
  rewrite !well_kept_rows. intros (Hs & Ue & Uk & He & Hk).
  pose proof (steady_now_tick w Hs) as Hnow.
  change (now (with_store _ (tick w))) with (now (tick w)).
  cbn [store with_store with_epss_cache tick epss_cache cisa_kev_cache].
  split_all.
  - exact Hs.
  - apply NoDup_keys_insert, Ue.
  - exact Uk.
  - apply Forall_insert.
    + unfold epss_row_ok. cbn [Epss.cached_at Epss.last_accessed]. lia.
    + eapply epss_row_ok_later; eassumption.
  - eapply kev_row_ok_later; eassumption.
Qed.

Lemma well_kept_cache_cisa_kev (cve_id vendor_project product
    vulnerability_name date_added short_description required_action
    due_date : string) (w : world) :
  well_kept w ->
  well_kept (after (cache_cisa_kev cve_id vendor_project product
                      vulnerability_name date_added short_description
                      required_action due_date) w).
Proof.
  unfold after, cache_cisa_kev. run_py. cbn [snd].
  rewrite !well_kept_rows. intros (Hs & Ue & Uk & He & Hk).
  pose proof (steady_now_tick w Hs) as Hnow.
  change (now (with_store _ (tick w))) with (now (tick w)).
  cbn [store with_store with_cisa_kev_cache tick epss_cache cisa_kev_cache].
  split_all.
  - exact Hs.
  - exact Ue.
  - apply NoDup_keys_insert, Uk.
  - eapply epss_row_ok_later; eassumption.
  - apply Forall_insert.
    + unfold kev_row_ok. cbn [Kev.cached_at Kev.last_accessed].
      fold (now w). lia.
    + eapply kev_row_ok_later; eassumption.
Qed.

Lemma well_kept_tick (w : world) : well_kept w -> well_kept (tick w).
Proof.
  intros H. apply (well_kept_frame w); auto. cbn. lia.
Qed.

Lemma well_kept_get_epss_score (cve_id : string) (max_age_days : Z) (w : world) :
  well_kept w -> well_kept (after (get_epss_score cve_id max_age_days) w).
Proof.
  intros H. unfold after. rewrite get_epss_score_run.
  destruct (epss_entry (store w) cve_id) as [r |]; [| exact H].
  destruct (timedelta_days_ok max_age_days); [| apply well_kept_tick, H].
  destruct (_ >? _); [apply well_kept_tick, H |]. cbn [snd].
  revert H. rewrite !well_kept_rows. intros (Hs & Ue & Uk & He & Hk).
  assert (H1 : now w <= now (tick w)) by (apply steady_now_tick, Hs).
  assert (H2 : now (tick w) <= now (tick (tick w)))
    by (apply (steady_now_tick (tick w)), Hs).
  change (now (with_store _ (tick (tick w)))) with (now (tick (tick w))).
  cbn [store with_store with_epss_cache tick epss_cache cisa_kev_cache].
  split_all.
  - exact Hs.
  - rewrite keys_update by reflexivity. exact Ue.
  - exact Uk.
  - eapply Forall_update; [| | exact He]; unfold epss_row_ok;
      cbn [Epss.cached_at Epss.last_accessed Epss.set_last_accessed];
      intros x [Hx1 Hx2]; lia.
  - eapply kev_row_ok_later; [| exact Hk]. lia.
Qed.

Lemma well_kept_is_in_cisa_kev (cve_id : string) (max_age_days : Z) (w : world) :
  well_kept w -> well_kept (after (is_in_cisa_kev cve_id max_age_days) w).
Proof.
  intros H. unfold after. rewrite is_in_cisa_kev_run.
  destruct (kev_entry (store w) cve_id) as [r |]; [| exact H].
  destruct (timedelta_days_ok max_age_days); [| apply well_kept_tick, H].
  destruct (_ >? _); [apply well_kept_tick, H |]. cbn [snd].
  revert H. rewrite !well_kept_rows. intros (Hs & Ue & Uk & He & Hk).
  assert (H1 : now w <= now (tick w)) by (apply steady_now_tick, Hs).
  assert (H2 : now (tick w) <= now (tick (tick w)))
    by (apply (steady_now_tick (tick w)), Hs).
  change (now (with_store _ (tick (tick w)))) with (now (tick (tick w))).
  cbn [store with_store with_cisa_kev_cache tick epss_cache cisa_kev_cache].
  split_all.
  - exact Hs.
  - exact Ue.
  - rewrite keys_update by reflexivity. exact Uk.
  - eapply epss_row_ok_later; [| exact He]. lia.
  - eapply Forall_update; [| | exact Hk]; unfold kev_row_ok;
      cbn [Kev.cached_at Kev.last_accessed Kev.set_last_accessed];
      intros x [Hx1 Hx2]; lia.
Qed.

Lemma well_kept_clear_expired_cache (e k : Z) (w : world) :
  well_kept w -> well_kept (after (clear_expired_cache e k) w).
Proof.
  intros H. unfold after, clear_expired_cache. run_py.
  destruct (timedelta_days_ok e); [| apply well_kept_tick, H].
  destruct (in_rangeb _); [| apply well_kept_tick, H].
  destruct (timedelta_days_ok k); [| apply well_kept_tick, well_kept_tick, H].
  cbn [tick ticks wall_clock store].
  destruct (in_rangeb _); [| apply well_kept_tick, well_kept_tick, H].
  cbn [snd].
  apply well_kept_tick, well_kept_tick in H. revert H.
  rewrite !well_kept_rows. intros (Hs & Ue & Uk & He & Hk).
  match goal with
  | |- context [now (with_store ?f (with_store ?g (tick (tick w))))] =>
      change (now (with_store f (with_store g (tick (tick w)))))
        with (now (tick (tick w)))
  end.
  cbn [store with_store with_epss_cache with_cisa_kev_cache epss_cache
       cisa_kev_cache] in *.
  split_all.
  - exact Hs.
  - apply NoDup_keys_filter, Ue.
  - apply NoDup_keys_filter, Uk.
  - apply Forall_delete, He.
  - apply Forall_delete, Hk.
Qed.

Section InvariantFacts.
Context {Dict : Type} (json_dumps : Dict -> option string).

(** No call changes what the clock reads. *)
Lemma wall_clock_perform (c : call Dict) (w : world) :
  wall_clock (perform json_dumps c w) = wall_clock w.
Proof.
  destruct c; cbn [perform]; unfold after; try reflexivity.
  - rewrite get_epss_score_run.
    destruct (epss_entry (store w) cve_id); [| reflexivity].
    destruct (timedelta_days_ok max_age_days); [| reflexivity].
    destruct (_ >? _); reflexivity.
  - rewrite is_in_cisa_kev_run.
    destruct (kev_entry (store w) cve_id); [| reflexivity].
    destruct (timedelta_days_ok max_age_days); [| reflexivity].
    destruct (_ >? _); reflexivity.
  - unfold get_all_cisa_kev_cves. run_py.
    destruct (timedelta_days_ok max_age_days); [| reflexivity].
    destruct (in_rangeb _); reflexivity.
  - rewrite log_api_call_run. cbv zeta.
    destruct (json_dumps parameters); [| reflexivity].
    destruct (negb _); [reflexivity |].
    destruct (MAX_ROWID <=? _); reflexivity.
  - unfold clear_expired_cache. run_py.
    destruct (timedelta_days_ok epss_max_age_days); [| reflexivity].
    destruct (in_rangeb _); [| reflexivity].
    destruct (timedelta_days_ok kev_max_age_days); [| reflexivity].
    cbn [tick ticks wall_clock store].
    destruct (in_rangeb _); reflexivity.
Qed.

Lemma steady_clock_perform (c : call Dict) (w : world) :
  steady_clock (perform json_dumps c w) <-> steady_clock w.
Proof. unfold steady_clock. rewrite wall_clock_perform. reflexivity. Qed.

(** One entry per identifier: no assumption on the clock is needed. *)
Lemma unique_ids_perform (c : call Dict) (w : world) :
  unique_ids (store w) -> unique_ids (store (perform json_dumps c w)).
Proof.
  unfold unique_ids. intros [Ue Uk].
  destruct c; cbn [perform]; unfold after.
  - split; assumption.
  - split; assumption.
  - split; assumption.
  - rewrite cache_epss_score_run. cbn [snd].
    cbn [store with_store with_epss_cache tick epss_cache cisa_kev_cache].
    split; [apply NoDup_keys_insert, Ue | exact Uk].
  - rewrite get_epss_score_run.
    destruct (epss_entry (store w) cve_id); [| split; assumption].
    destruct (timedelta_days_ok max_age_days); [| split; assumption].
    destruct (_ >? _); [split; assumption |]. cbn [snd].
    cbn [store with_store with_epss_cache tick epss_cache cisa_kev_cache].
    rewrite keys_update by reflexivity. split; assumption.
  - unfold cache_cisa_kev. run_py. cbn [snd].
    cbn [store with_store with_cisa_kev_cache tick epss_cache cisa_kev_cache].
    split; [exact Ue | apply NoDup_keys_insert, Uk].
  - rewrite is_in_cisa_kev_run.
    destruct (kev_entry (store w) cve_id); [| split; assumption].
    destruct (timedelta_days_ok max_age_days); [| split; assumption].
    destruct (_ >? _); [split; assumption |]. cbn [snd].
    cbn [store with_store with_cisa_kev_cache tick epss_cache cisa_kev_cache].
    rewrite keys_update by reflexivity. split; assumption.
  - unfold get_all_cisa_kev_cves. run_py.
    destruct (timedelta_days_ok max_age_days); [| split; assumption].
    destruct (in_rangeb _); split; assumption.
  - rewrite log_api_call_run. cbv zeta.
    destruct (json_dumps parameters); [| split; assumption].
    destruct (negb _); [split; assumption |].
    destruct (MAX_ROWID <=? _); split; assumption.
  - split; assumption.
  - unfold clear_expired_cache. run_py.
    destruct (timedelta_days_ok epss_max_age_days); [| split; assumption].
    destruct (in_rangeb _); [| split; assumption].
    destruct (timedelta_days_ok kev_max_age_days); [| split; assumption].
    cbn [tick ticks wall_clock store].
    destruct (in_rangeb _); [| split; assumption].
    cbn [snd].
    cbn [store with_store with_epss_cache with_cisa_kev_cache tick
         epss_cache cisa_kev_cache].
    split; apply NoDup_keys_filter; assumption.
Qed.

Lemma well_kept_perform (c : call Dict) (w : world) :
  well_kept w -> well_kept (perform json_dumps c w).
Proof.
  intros H. destruct c; cbn [perform].
  - apply (well_kept_frame w); auto. cbn. lia.
  - apply (well_kept_frame w); auto. cbn. lia.
  - exact H.
  - apply well_kept_cache_epss_score, H.
  - apply well_kept_get_epss_score, H.
  - apply well_kept_cache_cisa_kev, H.
  - apply well_kept_is_in_cisa_kev, H.
  - unfold after, get_all_cisa_kev_cves. run_py.
    destruct (timedelta_days_ok max_age_days); [| apply well_kept_tick, H].
    destruct (in_rangeb _); apply well_kept_tick, H.
  - unfold after. rewrite log_api_call_run. cbv zeta.
    destruct (json_dumps parameters); [| exact H].
    destruct (negb _); [apply well_kept_tick, H |].
    destruct (MAX_ROWID <=? _); [apply well_kept_tick, H |].
    apply (well_kept_frame w); auto. cbn. lia.
  - apply (well_kept_frame w); auto. cbn. lia.
  - apply well_kept_clear_expired_cache, H.
Qed.

Lemma well_kept_new (w : world) :
  store w = empty_db -> steady_clock w -> well_kept w.
Proof.
  intros E Hs. apply well_kept_rows. rewrite E. cbn.
  split_all; auto; constructor.
Qed.

Lemma reachable_unique_ids (w : world) :
  reachable json_dumps w -> unique_ids (store w).
Proof.
  induction 1 as [w E | w c _ IH].
  - apply unique_ids_perform. rewrite E. split; constructor.
  - apply unique_ids_perform, IH.
Qed.

Lemma reachable_well_kept (w : world) :
  reachable json_dumps w -> steady_clock w -> well_kept w.
Proof.
  induction 1 as [w E | w c _ IH]; intros Hs;
    apply steady_clock_perform in Hs.
  - apply well_kept_perform, well_kept_new; assumption.
  - apply well_kept_perform, IH, Hs.
Qed.

(** C8, amended: every state reachable through the calls of the cache has
    at most one EPSS entry and at most one KEV entry per identifier,
    whatever the clock reads; when the readings of [datetime.now()] never
    step back, it has [cached_at <= last_accessed] on every entry as well.
    Each call, the upserts, the reads and the sweep among them, preserves
    the uniqueness of the identifiers, and preserves the whole invariant
    from a state whose clock does not step back and where no stored
    timestamp is ahead of the clock. *)
Theorem cache_invariant_under_steady_clock :
  (forall w, reachable json_dumps w -> unique_ids (store w)) /\
  (forall w, reachable json_dumps w -> steady_clock w ->
     cache_invariant (store w)) /\
  (forall (c : call Dict) (w : world),
     unique_ids (store w) -> unique_ids (store (perform json_dumps c w))) /\
  (forall (c : call Dict) (w : world),
     steady_clock w -> stamps_in_past w -> cache_invariant (store w) ->
     cache_invariant (store (perform json_dumps c w)) /\
     stamps_in_past (perform json_dumps c w) /\
     steady_clock (perform json_dumps c w)).
Proof.
  split_all.
  - apply reachable_unique_ids.
  - intros w Hw Hs. apply (reachable_well_kept w Hw Hs).
  - apply unique_ids_perform.
  - intros c w Hs Hp Hi.
    destruct (well_kept_perform c w (conj Hs (conj Hp Hi))) as (A & B & C).
    auto.
Qed.
End InvariantFacts.

(** ** Freshness on the three read paths *)

Lemma NoDup_keys_inj {R : Type} (key : R -> string) (t : list R) (r r' : R) :
  NoDup (map key t) -> In r t -> In r' t -> key r = key r' -> r = r'.
Proof.
  induction t as [| x t IH]; cbn [map In]; intros Hnd Hr Hr' Hk; [contradiction |].
  inversion Hnd as [| ? ? Hx Ht]; subst.
  destruct Hr as [-> | Hr], Hr' as [-> | Hr'].
  - reflexivity.
  - exfalso. apply Hx. rewrite Hk. apply in_map, Hr'.
  - exfalso. apply Hx. rewrite <- Hk. apply in_map, Hr.
  - apply IH; assumption.
Qed.

Lemma is_in_cisa_kev_hit (cve_id : string) (max_age_days : Z) (w : world)
    (r : Kev.row) :
  kev_entry (store w) cve_id = Some r ->
  timedelta_days_ok max_age_days = true ->
  now w - Kev.cached_at r <= days max_age_days ->
  result (is_in_cisa_kev cve_id max_age_days) w = Return true.
Proof.
  intros Hr Hok Hfresh. unfold result.
  rewrite is_in_cisa_kev_run, Hr, Hok, gtb_false by exact Hfresh. reflexivity.
Qed.


(** The text comparison [cached_at > cutoff] of [get_all_cisa_kev_cves],
    read on the instants: the age is strictly below the maximum age. *)
Lemma listed_text_iff (cached_at now_ : datetime) (max_age_days : Z) :
  in_range cached_at -> in_range (now_ - days max_age_days) ->
  sql_text_gt (isoformat cached_at) (isoformat (now_ - days max_age_days))
  = (now_ - cached_at <? days max_age_days).
Proof.
  intros Hc Hcut. unfold sql_text_gt.
  rewrite DatetimeFacts.isoformat_ltb by assumption.
  destruct (Z.ltb_spec (now_ - days max_age_days) cached_at);
    destruct (Z.ltb_spec (now_ - cached_at) (days max_age_days));
    lia || reflexivity.
Qed.

Lemma get_all_cisa_kev_cves_result (max_age_days : Z) (w : world) :
  stamps_in_range (store w) ->
  timedelta_days_ok max_age_days = true ->
  in_range (now w - days max_age_days) ->
  result (get_all_cisa_kev_cves max_age_days) w =
  Return (map Kev.cve_id
            (filter (fun r => now w - Kev.cached_at r <? days max_age_days)
                    (cisa_kev_cache (store w)))).
Proof.
  intros [_ Hsk] Hok Hcut. unfold result, get_all_cisa_kev_cves. run_py.
  rewrite Hok. fold (now w). rewrite (in_rangeb_true _ Hcut).
  cbn [fst store tick]. do 2 f_equal. apply filter_ext_in. intros r Hr.
  apply listed_text_iff; [| exact Hcut].
  exact (proj1 (Forall_forall _ _) Hsk r Hr).
Qed.

(** C1: an entry whose age equals the maximum age exactly.  [get_epss_score]
    and [is_in_cisa_kev] still return it, as [now - T <= A] asks, and look at
    [cached_at] only; [get_all_cisa_kev_cves] compares [cached_at > cutoff]
    and leaves the same entry out of the set it returns. *)
Theorem kev_listing_excludes_boundary_entry
    (w : world) (cve_id : string) (max_age_days : Z) (r : Kev.row) :
  unique_ids (store w) ->
  stamps_in_range (store w) ->
  timedelta_days_ok max_age_days = true ->
  in_range (now w - days max_age_days) ->
  kev_entry (store w) cve_id = Some r ->
  now w - Kev.cached_at r = days max_age_days ->
  result (is_in_cisa_kev cve_id max_age_days) w = Return true /\
  (exists listed,
     result (get_all_cisa_kev_cves max_age_days) w = Return listed /\
     ~ In cve_id listed) /\
  (forall e, epss_entry (store w) cve_id = Some e ->
     now w - Epss.cached_at e = days max_age_days ->
     result (get_epss_score cve_id max_age_days) w =
     Return (Some {| Score.epss := Epss.epss_score e;
                     Score.percentile := Epss.percentile e;
                     Score.model_version := Epss.model_version e;
                     Score.score_date := Epss.score_date e |})).
Proof.
  intros [_ Hu] Hs Hok Hcut Hr Hage. split; [| split].
  - apply (is_in_cisa_kev_hit _ _ _ r Hr Hok). lia.
  - eexists. split; [apply get_all_cisa_kev_cves_result; assumption |].
    rewrite in_map_iff. intros (r' & Hk & Hin).
    apply filter_In in Hin as [Hin Hlt]. apply Z.ltb_lt in Hlt.
    apply fetchone_by_key_key in Hr as [Hkr Hinr].
    assert (r' = r) by (eapply NoDup_keys_inj; eauto; congruence).
    subst r'. lia.
  - intros e He Hage'. apply (get_epss_score_hit _ _ _ e He Hok). lia.
Qed.


(** ** The window of the recent calls *)

Import DatetimeKeys.

(** An SQLite text against an ISO text: the dates decide, and on the same
    date the blank sorts before the [T]. *)
Lemma sqlite_text_iso_text_compare (f g : fields) :
  valid_fields f -> valid_fields g ->
  String.compare (sqlite_text f) (iso_text g) =
  match date_key (year f, month f, day f) ?= date_key (year g, month g, day g)
  with Eq => Lt | c => c end.
Proof.
  intros (Hy & Hm & Hd & _) (Hy' & Hm' & Hd' & _).
  unfold sqlite_text, iso_text, date_key.
  do 2 (rewrite DatetimeFacts.zfill_compare by lia;
        cbn [append]; rewrite DatetimeFacts.compare_same_head).
  rewrite DatetimeFacts.zfill_compare by lia.
  change (10 ^ Z.of_nat 4) with 10000. change (10 ^ Z.of_nat 2) with 100.
  rewrite !Z.mod_small by lia.
  repeat rewrite (DatetimeFacts.lex_compare 100) by lia.
  cbn [append String.compare].
  change (Ascii.compare " " "T") with Lt.
  repeat match goal with
         | |- context [Z.compare ?a ?b] => destruct (Z.compare a b)
         end; reflexivity.
Qed.

(** The WHERE clause of the recent calls, read on the instants: a call is
    counted when its day is the day of the cutoff or a later one. *)
Lemma recent_text_iff (timestamp cutoff : datetime) :
  in_range timestamp -> in_range cutoff ->
  sql_text_gt (isoformat timestamp) (sqlite_datetime cutoff)
  = (cutoff / US_PER_DAY <=? timestamp / US_PER_DAY).
Proof.
  intros Ht Hc. unfold sql_text_gt, String.ltb.
  change (isoformat timestamp) with (iso_text (to_fields timestamp)).
  change (sqlite_datetime cutoff) with (sqlite_text (to_fields cutoff)).
  rewrite sqlite_text_iso_text_compare
    by (apply DatetimeFacts.to_fields_valid; assumption).
  pose proof (DatetimeFacts.date_key_compare (cutoff / US_PER_DAY + 1)
                (timestamp / US_PER_DAY + 1)) as Hk.
  unfold to_fields.
  destruct (_ord2ymd (cutoff / US_PER_DAY + 1)) as [[yc mc] dc].
  destruct (_ord2ymd (timestamp / US_PER_DAY + 1)) as [[yt mt] dt].
  cbn [year month day]. rewrite Hk.
  rewrite !(Z.add_comm _ 1), Z.add_compare_mono_l.
  unfold Z.leb.
  destruct (cutoff / US_PER_DAY ?= timestamp / US_PER_DAY); reflexivity.
Qed.

(** C9: a call logged at 2024-01-01T00:00:00 and statistics taken 47 hours
    later, at 2024-01-02 23:00:00.  The cutoff SQLite computes is the text
    [2024-01-01 23:00:00]; the stored timestamp
    [2024-01-01T00:00:00] compares above it, and the call is counted among
    those of the last 24 hours. *)
Theorem stats_counts_call_older_than_24_hours :
  let report := Sample.t0 + hours 47 in
  let w := Sample.with_call report in
  map Log.timestamp (api_call_log (store w)) = ["2024-01-01T00:00:00"] /\
  sqlite_clock w (ticks w) = report /\
  sqlite_datetime (report - hours 24) = "2024-01-01 23:00:00" /\
  result get_cache_stats w =
  Return {| Stats.epss_cached_entries := 0;
            Stats.cisa_kev_cached_entries := 0;
            Stats.total_api_calls := 1;
            Stats.cached_api_calls := 0;
            Stats.recent_calls_by_type := [("EPSS", 1)] |}.
Proof. vm_compute. repeat split. Qed.

(** ** The answers of the KEV lookup *)


(** C8, as stated, fails: the order of the two timestamps depends on the
    clock.  On a new database file the constructor runs, one score is
    cached at 2024-01-01T00:00:00, and the clock reads one second less when
    the score is read: the entry still counts as fresh, and the read stores
    a [last_accessed] one second below [cached_at].  The state is reachable
    through the calls alone, and violates the invariant. *)
Lemma clock_stepping_back_breaks_invariant :
  let w := perform Sample.json_dumps (GetEpssScore "CVE-1" 7)
             (perform Sample.json_dumps
                (CacheEpssScore "CVE-1" 0.42 90.0 "v1" "2024-01-01")
                (perform Sample.json_dumps Init
                   (Sample.new_world 4 Sample.t0
                      (Sample.t0 - seconds 1)))) in
  reachable Sample.json_dumps w /\
  map Epss.cve_id (epss_cache (store w)) = ["CVE-1"] /\
  map Epss.cached_at (epss_cache (store w)) = [Sample.t0] /\
  map Epss.last_accessed (epss_cache (store w)) = [Sample.t0 - seconds 1] /\
  Sample.t0 - seconds 1 < Sample.t0 /\
  ~ cache_invariant (store w).
Proof.
  cbv zeta. split_all.
  - do 2 apply reachable_call. apply reachable_new. reflexivity.
  - reflexivity.
  - reflexivity.
  - reflexivity.
  - vm_compute. reflexivity.
  - intros [_ [He _]]. apply Forall_inv in He. vm_compute in He.
    apply He. reflexivity.
Qed.

(** The sweep does not repair it: after a write, a read under a clock one
    second behind and [clear_expired_cache], the entry is still there with
    [last_accessed] below [cached_at]. *)
Example clock_stepping_back_reorders_timestamps :
  let w := after (clear_expired_cache 7 1)
             (after (get_epss_score "CVE-1" 7)
                (Sample.with_epss (Sample.t0 - seconds 1))) in
  map Epss.cached_at (epss_cache (store w)) = [Sample.t0] /\
  map Epss.last_accessed (epss_cache (store w)) = [Sample.t0 - seconds 1].
Proof. vm_compute. split; reflexivity. Qed.


(** ** The properties on sample processes *)

Ltac by_eval := vm_compute; first [reflexivity | intros H; discriminate H].

Lemma kev_listing_excludes_boundary_entry_witness :
  let w := Sample.with_kev (Sample.t0 + days 1) in
  let r := {| Kev.cve_id := "CVE-2021-44228"; Kev.vendor_project := "Apache";
              Kev.product := "Log4j2"; Kev.vulnerability_name := "Log4Shell";
              Kev.date_added := "2021-12-10";
              Kev.short_description := "Remote code execution";
              Kev.required_action := "Apply updates";
              Kev.due_date := "2021-12-24";
              Kev.cached_at := Sample.t0; Kev.last_accessed := Sample.t0 |} in
  kev_entry (store w) "CVE-2021-44228" = Some r /\
  now w - Kev.cached_at r = days 1 /\
  result (is_in_cisa_kev "CVE-2021-44228" 1) w = Return true /\
  exists listed,
    result (get_all_cisa_kev_cves 1) w = Return listed /\
    ~ In "CVE-2021-44228" listed.
Proof.
  cbv zeta. split; [reflexivity |]. split; [reflexivity |].
  assert (Hu : unique_ids (store (Sample.with_kev (Sample.t0 + days 1))))
    by (split; repeat constructor; intros []).
  assert (Hs : stamps_in_range (store (Sample.with_kev (Sample.t0 + days 1))))
    by (split; repeat constructor; by_eval).
  assert (Hc : in_range (now (Sample.with_kev (Sample.t0 + days 1)) - days 1))
    by (split; by_eval).
  destruct (kev_listing_excludes_boundary_entry
              (Sample.with_kev (Sample.t0 + days 1)) "CVE-2021-44228" 1 _
              Hu Hs eq_refl Hc eq_refl eq_refl) as (H1 & H2 & _).
  split; [exact H1 | exact H2].
Defined.



Lemma epss_round_trip_witness :
  let w1 := Sample.with_epss (Sample.t0 + days 7) in
  let w1' := Sample.with_epss (Sample.t0 + days 7 + seconds 1) in
  now (later 0 w1) - Sample.t0 <= days 7 /\
  now (later 0 w1') = Sample.t0 + days 7 + seconds 1 /\
  result (get_epss_score "CVE-1" 7) (later 0 w1) =
  Return (Some {| Score.epss := Some 0.42%float;
                  Score.percentile := Some 90.0%float;
                  Score.model_version := "v1";
                  Score.score_date := "2024-01-01" |}) /\
  result (get_epss_score "CVE-1" 7) (later 0 w1') = Return None.
Proof.
  cbv zeta. split; [by_eval |]. split; [reflexivity |]. split.
  - apply (proj1 (epss_round_trip
                    (Sample.new_world 1 Sample.t0 (Sample.t0 + days 7))) 0%nat).
    by_eval.
  - apply (proj2 (epss_round_trip
                    (Sample.new_world 1 Sample.t0
                       (Sample.t0 + days 7 + seconds 1))) 0%nat).
    reflexivity.
Defined.

Lemma read_touches_only_last_accessed_witness :
  let w := Sample.with_epss (Sample.t0 + days 1) in
  timedelta_days_ok 7 = true /\
  (exists r, epss_entry (store w) "CVE-1" = Some r /\
             now w - Epss.cached_at r <= days 7) /\
  (exists r', epss_entry (store (after (get_epss_score "CVE-1" 7) w)) "CVE-1"
              = Some r' /\
              Epss.cached_at r' = Sample.t0 /\
              Epss.last_accessed r' = Sample.t0 + days 1) /\
  store (after get_cache_stats w) = store w.
Proof.
  cbv zeta. split; [reflexivity |].
  split; [eexists; split; [reflexivity | by_eval] |].
  destruct (read_touches_only_last_accessed
              (Sample.with_epss (Sample.t0 + days 1)) "CVE-1" 7 eq_refl)
    as (He & _ & Hs).
  split; [| exact Hs].
  destruct (He _ eq_refl) as ((r' & Hr' & _ & Hc & Hl) & _); [by_eval |].
  exists r'. split; [exact Hr' |]. split; [exact Hc | exact Hl].
Defined.

Lemma sweep_deletes_exactly_the_expired_witness :
  let w := Sample.with_three (Sample.t0 + days 10) in
  List.length (epss_cache (store w)) = 3%nat /\
  Forall (fun r => now w - Epss.cached_at r = days 10) (epss_cache (store w)) /\
  epss_cache (store (after (clear_expired_cache 7 1) w)) = [] /\
  exists n,
    result (clear_expired_cache 7 1) w =
    Return {| Swept.epss_deleted := 3; Swept.kev_deleted := n |}.
Proof.
  cbv zeta. split; [reflexivity |].
  split; [repeat constructor |].
  pose proof (sweep_deletes_exactly_the_expired
                (Sample.with_three (Sample.t0 + days 10)) 7 1) as H.
  cbv zeta in H.
  destruct H as (_ & _ & _ & _ & _ & _ & Hall).
  - split; repeat constructor; by_eval.
  - reflexivity.
  - reflexivity.
  - split; by_eval.
  - split; by_eval.
  - apply Hall. repeat constructor.
Defined.


Lemma sample_clock_steady (k : nat) (first next : datetime) :
  first <= next -> steady_clock (Sample.new_world k first next).
Proof.
  intros Hle n m Hnm. unfold Sample.new_world, Sample.clock.
  cbn [wall_clock].
  destruct (Nat.ltb_spec n k), (Nat.ltb_spec m k); lia.
Qed.

Lemma cache_invariant_under_steady_clock_witness :
  let w := perform Sample.json_dumps (GetEpssScore "CVE-1" 7)
             (perform Sample.json_dumps
                (CacheEpssScore "CVE-1" 0.42 90.0 "v1" "2024-01-01")
                (perform Sample.json_dumps Init
                   (Sample.new_world 4 Sample.t0 (Sample.t0 + days 1)))) in
  reachable Sample.json_dumps w /\
  steady_clock w /\
  map Epss.cached_at (epss_cache (store w)) = [Sample.t0] /\
  map Epss.last_accessed (epss_cache (store w)) = [Sample.t0 + days 1] /\
  Sample.t0 < Sample.t0 + days 1 /\
  cache_invariant (store w).
Proof.
  cbv zeta.
  assert (Hr : reachable Sample.json_dumps
                 (perform Sample.json_dumps (GetEpssScore "CVE-1" 7)
                    (perform Sample.json_dumps
                       (CacheEpssScore "CVE-1" 0.42 90.0 "v1" "2024-01-01")
                       (perform Sample.json_dumps Init
                          (Sample.new_world 4 Sample.t0
                             (Sample.t0 + days 1)))))).
  { do 2 apply reachable_call. apply reachable_new. reflexivity. }
  assert (Hs : steady_clock
                 (perform Sample.json_dumps (GetEpssScore "CVE-1" 7)
                    (perform Sample.json_dumps
                       (CacheEpssScore "CVE-1" 0.42 90.0 "v1" "2024-01-01")
                       (perform Sample.json_dumps Init
                          (Sample.new_world 4 Sample.t0
                             (Sample.t0 + days 1)))))).
  { apply (sample_clock_steady 4 Sample.t0 (Sample.t0 + days 1)).
    unfold days, US_PER_DAY, US_PER_SECOND. lia. }
  split; [exact Hr |]. split; [exact Hs |].
  split; [reflexivity |]. split; [reflexivity |].
  split; [by_eval |].
  destruct (cache_invariant_under_steady_clock Sample.json_dumps)
    as (_ & Hinv & _).
  exact (Hinv _ Hr Hs).
Defined.

Lemma miss_leaves_store_unchanged_witness :
  let w := Sample.with_both (Sample.t0 + days 8) in
  (exists r, epss_entry (store w) "CVE-1" = Some r /\
             now w - Epss.cached_at r > days 7) /\
  kev_entry (store w) "CVE-1" = None /\
  store (after (get_epss_score "CVE-1" 7) w) = store w /\
  store (after (is_in_cisa_kev "CVE-1" 7) w) = store w /\
  store (after (get_all_cisa_kev_cves 7) w) = store w.
Proof.
  cbv zeta.
  destruct (miss_leaves_store_unchanged
              (Sample.with_both (Sample.t0 + days 8)) "CVE-1" 7)
    as (He & Hk & Ha & _).
  assert (Hstale : exists r,
            epss_entry (store (Sample.with_both (Sample.t0 + days 8))) "CVE-1"
            = Some r /\
            now (Sample.with_both (Sample.t0 + days 8)) - Epss.cached_at r
            > days 7).
  { eexists. split; [reflexivity | by_eval]. }
  split; [exact Hstale |]. split; [reflexivity |].
  split; [apply He; right; exact Hstale |].
  split; [apply Hk; left; reflexivity | exact Ha].
Defined.

(** * Further properties of the cache *)

(** ** The metadata register *)

Lemma _set_metadata_run (key value : string) (w : world) :
  _set_metadata key value w =
  (Return tt,
   with_store (with_metadata (insert_or_replace Meta.key
     {| Meta.key := key; Meta.value := value; Meta.updated_at := now w |}))
     (tick w)).
Proof. reflexivity. Qed.

Lemma _get_metadata_run (key : string) (w : world) :
  _get_metadata key w = (Return (metadata_value (store w) key), w).
Proof.
  unfold _get_metadata, metadata_value. run_py.
  destruct (fetchone_by_key Meta.key key (metadata (store w))); reflexivity.
Qed.

Lemma metadata_value_after_set (key value other : string) (w : world) :
  metadata_value (store (after (_set_metadata key value) w)) other =
  if (other =? key)%string then Some value
  else metadata_value (store w) other.
Proof.
  unfold after. rewrite _set_metadata_run. unfold metadata_value. simpl.
  destruct (String.eqb_spec other key) as [-> | Hne].
  - rewrite (fetchone_insert_same Meta.key
               {| Meta.key := key; Meta.value := value;
                  Meta.updated_at := now w |}).
    reflexivity.
  - rewrite fetchone_insert_other by exact Hne. reflexivity.
Qed.



(** X2: opening a database file, new or existing, keeps every cached
    entry, the audit log and its sequence; it sets [db_version] to [1.0]
    and overwrites [created_at] with the ISO text of the clock at this
    opening, so the value written when the file was first created does not
    survive a reopening; the other metadata keys read as before. *)
Theorem init_database_resets_created_at (w : world) (other : string) :
  let w' := after _init_database w in
  result (_get_metadata "db_version") w' = Return (Some "1.0") /\
  result (_get_metadata "created_at") w'
  = Return (Some (isoformat (wall_clock w (S (ticks w))))) /\
  (other <> "db_version" -> other <> "created_at" ->
   result (_get_metadata other) w' = result (_get_metadata other) w) /\
  epss_cache (store w') = epss_cache (store w) /\
  cisa_kev_cache (store w') = cisa_kev_cache (store w) /\
  api_call_log (store w') = api_call_log (store w) /\
  sqlite_sequence (store w') = sqlite_sequence (store w).
Proof.
  intros w'.
  assert (E : w' = after (_set_metadata "created_at"
                            (isoformat (wall_clock w (S (ticks w)))))
                     (tick (after (_set_metadata "db_version" "1.0") w)))
    by reflexivity.
  unfold result. rewrite !_get_metadata_run. cbn [fst].
  rewrite E, !metadata_value_after_set.
  change (store (tick (after (_set_metadata "db_version" "1.0") w)))
    with (store (after (_set_metadata "db_version" "1.0") w)).
  rewrite !metadata_value_after_set.
  split_all; try reflexivity.
  intros H1 H2.
  destruct (String.eqb_spec other "created_at"); [contradiction |].
  destruct (String.eqb_spec other "db_version"); [contradiction | reflexivity].
Qed.

(** ** The KEV upsert *)

Lemma cache_cisa_kev_run (cve_id vendor_project product vulnerability_name
    date_added short_description required_action due_date : string)
    (w : world) :
  cache_cisa_kev cve_id vendor_project product vulnerability_name date_added
    short_description required_action due_date w =
  (Return tt,
   with_store (with_cisa_kev_cache (insert_or_replace Kev.cve_id
     {| Kev.cve_id := cve_id;
        Kev.vendor_project := vendor_project;
        Kev.product := product;
        Kev.vulnerability_name := vulnerability_name;
        Kev.date_added := date_added;
        Kev.short_description := short_description;
        Kev.required_action := required_action;
        Kev.due_date := due_date;
        Kev.cached_at := now w;
        Kev.last_accessed := now w |})) (tick w)).
Proof. reflexivity. Qed.



(** ** The EPSS upsert *)

Section ExtraTableFacts.
Context {R : Type} (key : R -> string).




End ExtraTableFacts.



(** ** The listing of the KEV cache *)

(** X5: what [get_all_cisa_kev_cves] returns.  On a store with unique
    identifiers and in-range timestamps, and when the cutoff is a
    [datetime], the returned identifiers are exactly those whose entry is
    younger than the maximum age (strictly), each listed once; and every
    listed identifier is one for which [is_in_cisa_kev] answers [True] at
    the same clock reading. *)
Theorem kev_listing_is_the_young_entries
    (w : world) (max_age_days : Z) :
  unique_ids (store w) ->
  stamps_in_range (store w) ->
  timedelta_days_ok max_age_days = true ->
  in_range (now w - days max_age_days) ->
  exists listed,
    result (get_all_cisa_kev_cves max_age_days) w = Return listed /\
    NoDup listed /\
    (forall cve_id,
       In cve_id listed <->
       exists r, kev_entry (store w) cve_id = Some r /\
                 now w - Kev.cached_at r < days max_age_days) /\
    (forall cve_id,
       In cve_id listed ->
       result (is_in_cisa_kev cve_id max_age_days) w = Return true).
Proof.
  intros [_ Hu] Hs Hok Hcut.
  assert (Hlisted : forall cve_id,
    In cve_id
      (map Kev.cve_id
         (filter (fun r => now w - Kev.cached_at r <? days max_age_days)
                 (cisa_kev_cache (store w)))) <->
    exists r, kev_entry (store w) cve_id = Some r /\
              now w - Kev.cached_at r < days max_age_days).
  { intros cve_id. rewrite in_map_iff. split.
    - intros (r & Hk & Hin). apply filter_In in Hin as [Hin Hlt].
      apply Z.ltb_lt in Hlt. exists r. split; [| exact Hlt].
      unfold kev_entry.
      destruct (fetchone_by_key Kev.cve_id cve_id (cisa_kev_cache (store w)))
        as [r' |] eqn:E.
      + apply fetchone_by_key_key in E as [Hk' Hin'].
        f_equal. eapply NoDup_keys_inj; eauto. congruence.
      + exfalso. apply fetchone_by_key_none in E. apply E.
        rewrite <- Hk. apply in_map, Hin.
    - intros (r & Hr & Hlt). apply fetchone_by_key_key in Hr as [Hk Hin].
      exists r. split; [exact Hk |]. apply filter_In. split; [exact Hin |].
      apply Z.ltb_lt, Hlt. }
  eexists. split; [apply get_all_cisa_kev_cves_result; assumption |].
  split_all.
  - apply NoDup_keys_filter, Hu.
  - exact Hlisted.
  - intros cve_id Hin. apply Hlisted in Hin as (r & Hr & Hlt).
    apply (is_in_cisa_kev_hit _ _ _ r Hr Hok). lia.
Qed.

Lemma kev_listing_is_the_young_entries_witness :
  let w := Sample.with_kev (Sample.t0 + hours 23) in
  unique_ids (store w) /\
  stamps_in_range (store w) /\
  timedelta_days_ok 1 = true /\
  in_range (now w - days 1) /\
  exists listed,
    result (get_all_cisa_kev_cves 1) w = Return listed /\
    In "CVE-2021-44228" listed /\
    result (is_in_cisa_kev "CVE-2021-44228" 1) w = Return true.
Proof.
  cbv zeta.
  assert (Hu : unique_ids (store (Sample.with_kev (Sample.t0 + hours 23))))
    by (split; repeat constructor; intros []).
  assert (Hs : stamps_in_range (store (Sample.with_kev (Sample.t0 + hours 23))))
    by (split; repeat constructor; by_eval).
  assert (Hc : in_range (now (Sample.with_kev (Sample.t0 + hours 23)) - days 1))
    by (split; by_eval).
  destruct (kev_listing_is_the_young_entries
              (Sample.with_kev (Sample.t0 + hours 23)) 1 Hu Hs eq_refl Hc)
    as (listed & Hres & _ & Hiff & Htrue).
  assert (Hin : In "CVE-2021-44228" listed).
  { apply Hiff. eexists. split; [reflexivity | by_eval]. }
  split; [exact Hu |]. split; [exact Hs |]. split; [reflexivity |].
  split; [exact Hc |]. exists listed.
  split; [exact Hres |]. split; [exact Hin | exact (Htrue _ Hin)].
Defined.

(** ** The sweep against the reads *)





(** ** Maximum ages that datetime arithmetic cannot take *)






(** ** The numbering of the audit log *)

Lemma max_rowid_le (m : Z) (t : list Log.row) :
  0 <= m -> Forall (fun r => Log.id r <= m) t -> max_rowid t <= m.
Proof.
  intros Hm. induction 1 as [| x t Hx _ IH]; cbn [max_rowid fold_right].
  - exact Hm.
  - fold (max_rowid t). lia.
Qed.

Lemma log_numbered_last (d : db) :
  log_numbered d ->
  Z.max (sqlite_sequence d) (max_rowid (api_call_log d))
  = Z.of_nat (List.length (api_call_log d)).
Proof.
  intros [Hids Hseq]. rewrite Hseq. apply Z.max_l.
  apply max_rowid_le; [lia |].
  rewrite Forall_forall. intros r Hr.
  assert (Hin : In (Log.id r) (map Log.id (api_call_log d)))
    by (apply in_map, Hr).
  rewrite Hids in Hin. apply in_map_iff in Hin as (i & <- & Hi).
  apply in_seq in Hi. lia.
Qed.

Section ExtraLogFacts.
Context {Dict : Type} (json_dumps : Dict -> option string).

Lemma sqlite_sequence_frame (c : call Dict) (w : world) :
  (forall t e p sc rt cd, c <> LogApiCall t e p sc rt cd) ->
  sqlite_sequence (store (perform json_dumps c w)) = sqlite_sequence (store w).
Proof.
  intros Hc. destruct c; cbn [perform]; unfold after;
    try reflexivity.
  - rewrite get_epss_score_run.
    destruct (epss_entry (store w) cve_id); [| reflexivity].
    destruct (timedelta_days_ok max_age_days); [| reflexivity].
    destruct (_ >? _); reflexivity.
  - rewrite is_in_cisa_kev_run.
    destruct (kev_entry (store w) cve_id); [| reflexivity].
    destruct (timedelta_days_ok max_age_days); [| reflexivity].
    destruct (_ >? _); reflexivity.
  - exact (f_equal sqlite_sequence (get_all_cisa_kev_cves_store max_age_days w)).
  - exfalso. eapply Hc. reflexivity.
  - unfold clear_expired_cache. run_py.
    destruct (timedelta_days_ok epss_max_age_days); [| reflexivity].
    destruct (in_rangeb _); [| reflexivity].
    destruct (timedelta_days_ok kev_max_age_days); [| reflexivity].
    cbn [tick ticks wall_clock store].
    destruct (in_rangeb _); reflexivity.
Qed.

Lemma log_numbered_perform (c : call Dict) (w : world) :
  log_numbered (store w) -> log_numbered (store (perform json_dumps c w)).
Proof.
  intros H.
  assert (Hframe : (forall t e p sc rt cd, c <> LogApiCall t e p sc rt cd) ->
                   log_numbered (store (perform json_dumps c w))).
  { intros Hc. unfold log_numbered.
    rewrite api_call_log_frame, sqlite_sequence_frame by exact Hc. exact H. }
  destruct c; try (apply Hframe; discriminate).
  cbn [perform]. unfold after. rewrite log_api_call_run. cbv zeta.
  rewrite (log_numbered_last _ H).
  destruct (json_dumps parameters); [| exact H].
  destruct (negb _); [exact H |].
  destruct (MAX_ROWID <=? _); [exact H |].
  destruct H as [Hids Hseq]. unfold log_numbered.
  cbn [snd store with_store tick api_call_log sqlite_sequence].
  rewrite length_app. cbn [List.length].
  replace (List.length (api_call_log (store w)) + 1)%nat
    with (S (List.length (api_call_log (store w)))) by lia.
  split; [| lia].
  rewrite map_app, seq_S, map_app, Hids. cbn [map Log.id]. do 2 f_equal. lia.
Qed.

(** X9: the audit log of a database that grew from a new file through
    the calls of the cache is numbered 1, 2, ..., n in insertion order
    with no gap, and [sqlite_sequence] holds n; so the id of an entry is
    its position in the log and the next call logged gets n + 1. *)
Theorem audit_log_numbered_from_one (w : world) :
  reachable json_dumps w ->
  map Log.id (api_call_log (store w))
  = map Z.of_nat (seq 1 (List.length (api_call_log (store w)))) /\
  sqlite_sequence (store w) = Z.of_nat (List.length (api_call_log (store w))).
Proof.
  induction 1 as [w E | w c _ IH].
  - apply log_numbered_perform. rewrite E. split; reflexivity.
  - apply log_numbered_perform, IH.
Qed.
End ExtraLogFacts.

Lemma audit_log_numbered_from_one_witness :
  let call := LogApiCall "EPSS" "https://api.first.org/data/v1/epss"
                "CVE-2024-1234" 200 0.5 false in
  let w := perform Sample.json_dumps call
             (perform Sample.json_dumps (GetEpssScore "CVE-1" 7)
                (perform Sample.json_dumps call
                   (perform Sample.json_dumps Init
                      (Sample.new_world 4 Sample.t0
                         (Sample.t0 - seconds 1))))) in
  reachable Sample.json_dumps w /\
  map Log.id (api_call_log (store w)) = [1; 2] /\
  sqlite_sequence (store w) = 2.
Proof.
  cbv zeta.
  assert (Hr : reachable Sample.json_dumps
                 (perform Sample.json_dumps
                    (LogApiCall "EPSS" "https://api.first.org/data/v1/epss"
                       "CVE-2024-1234" 200 0.5 false)
                    (perform Sample.json_dumps (GetEpssScore "CVE-1" 7)
                       (perform Sample.json_dumps
                          (LogApiCall "EPSS"
                             "https://api.first.org/data/v1/epss"
                             "CVE-2024-1234" 200 0.5 false)
                          (perform Sample.json_dumps Init
                             (Sample.new_world 4 Sample.t0
                                (Sample.t0 - seconds 1))))))).
  { do 3 apply reachable_call. apply reachable_new. reflexivity. }
  split; [exact Hr |].
  exact (audit_log_numbered_from_one Sample.json_dumps _ Hr).
Defined.

(** ** Stored times are datetimes *)

Lemma times_in_range_frame (w w' : world) :
  times_in_range w ->
  wall_clock w' = wall_clock w ->
  epss_cache (store w') = epss_cache (store w) ->
  cisa_kev_cache (store w') = cisa_kev_cache (store w) ->
  api_call_log (store w') = api_call_log (store w) ->
  times_in_range w'.
Proof.
  unfold times_in_range, clock_in_range, stamps_in_range, log_stamped.
  intros (Hc & Hs & Hl) -> -> -> ->. auto.
Qed.

Section ExtraRangeFacts.
Context {Dict : Type} (json_dumps : Dict -> option string).

Lemma times_in_range_perform (c : call Dict) (w : world) :
  times_in_range w -> times_in_range (perform json_dumps c w).
Proof.
  intros H. pose proof H as (Hc & (Hse & Hsk) & Hl).
  destruct c; cbn [perform].
  - apply (times_in_range_frame w); auto.
  - apply (times_in_range_frame w); auto.
  - exact H.
  - unfold after. rewrite cache_epss_score_run.
    split; [exact Hc |]. split; [split |]; simpl; auto.
    apply Forall_insert; [apply Hc | exact Hse].
  - unfold after. rewrite get_epss_score_run.
    destruct (epss_entry (store w) cve_id); [| exact H].
    destruct (timedelta_days_ok max_age_days);
      [| apply (times_in_range_frame w); auto].
    destruct (_ >? _); [apply (times_in_range_frame w); auto |].
    split; [exact Hc |]. split; [split |]; simpl; auto.
    eapply Forall_update; [| | exact Hse]; auto.
  - unfold after. rewrite cache_cisa_kev_run.
    split; [exact Hc |]. split; [split |]; simpl; auto.
    apply Forall_insert; [apply Hc | exact Hsk].
  - unfold after. rewrite is_in_cisa_kev_run.
    destruct (kev_entry (store w) cve_id); [| exact H].
    destruct (timedelta_days_ok max_age_days);
      [| apply (times_in_range_frame w); auto].
    destruct (_ >? _); [apply (times_in_range_frame w); auto |].
    split; [exact Hc |]. split; [split |]; simpl; auto.
    eapply Forall_update; [| | exact Hsk]; auto.
  - unfold after, get_all_cisa_kev_cves. run_py.
    destruct (timedelta_days_ok max_age_days);
      [| apply (times_in_range_frame w); auto].
    destruct (in_rangeb _); apply (times_in_range_frame w); auto.
  - unfold after. rewrite log_api_call_run. cbv zeta.
    destruct (json_dumps parameters); [| exact H].
    destruct (negb _); [apply (times_in_range_frame w); auto |].
    destruct (MAX_ROWID <=? _); [apply (times_in_range_frame w); auto |].
    split; [exact Hc |]. split; [split |]; simpl; auto.
    apply Forall_app. split; [exact Hl |].
    constructor; [| constructor]. exists (now w). split; [apply Hc | reflexivity].
  - apply (times_in_range_frame w); auto.
  - unfold after, clear_expired_cache. run_py.
    destruct (timedelta_days_ok epss_max_age_days);
      [| apply (times_in_range_frame w); auto].
    destruct (in_rangeb _); [| apply (times_in_range_frame w); auto].
    destruct (timedelta_days_ok kev_max_age_days);
      [| apply (times_in_range_frame w); auto].
    cbn [tick ticks wall_clock store].
    destruct (in_rangeb _); [| apply (times_in_range_frame w); auto].
    split; [exact Hc |]. split; [split |]; simpl; auto;
      apply Forall_delete; assumption.
Qed.

(** X10: when every reading of the clock is a [datetime], every
    [cached_at] stored in the two caches is one too, and every timestamp
    of the audit log is the ISO text of one, in every state reached from a
    new database file; the text comparisons of the listing, the sweep and
    the statistics then always compare well-formed texts. *)
Theorem stored_times_are_datetimes (w : world) :
  reachable json_dumps w ->
  clock_in_range w ->
  stamps_in_range (store w) /\ log_stamped (store w).
Proof.
  intros Hr Hc.
  assert (H : times_in_range w); [| apply H].
  revert Hc. induction Hr as [w E | w c _ IH]; intros Hc;
    unfold clock_in_range in Hc; rewrite wall_clock_perform in Hc.
  - apply times_in_range_perform. split; [exact Hc |]. rewrite E.
    repeat split; constructor.
  - apply times_in_range_perform, IH. exact Hc.
Qed.
End ExtraRangeFacts.

Lemma sample_clock_in_range (k : nat) (first next : datetime) :
  in_range first -> in_range next ->
  clock_in_range (Sample.new_world k first next).
Proof.
  intros Hf Hn n. unfold Sample.new_world, Sample.clock. cbn [wall_clock].
  destruct (n <? k)%nat; assumption.
Qed.

Lemma stored_times_are_datetimes_witness :
  let w := perform Sample.json_dumps
             (LogApiCall "EPSS" "https://api.first.org/data/v1/epss"
                "CVE-1" 200 0.5 false)
             (perform Sample.json_dumps
                (CacheEpssScore "CVE-1" 0.42 90.0 "v1" "2024-01-01")
                (perform Sample.json_dumps Init
                   (Sample.new_world 4 Sample.t0
                      (Sample.t0 - seconds 1)))) in
  reachable Sample.json_dumps w /\
  clock_in_range w /\
  map Epss.cached_at (epss_cache (store w)) = [Sample.t0] /\
  map Log.timestamp (api_call_log (store w)) = ["2023-12-31T23:59:59"] /\
  stamps_in_range (store w) /\ log_stamped (store w).
Proof.
  cbv zeta.
  assert (Hr : reachable Sample.json_dumps
                 (perform Sample.json_dumps
                    (LogApiCall "EPSS" "https://api.first.org/data/v1/epss"
                       "CVE-1" 200 0.5 false)
                    (perform Sample.json_dumps
                       (CacheEpssScore "CVE-1" 0.42 90.0 "v1" "2024-01-01")
                       (perform Sample.json_dumps Init
                          (Sample.new_world 4 Sample.t0
                      (Sample.t0 - seconds 1)))))).
  { do 2 apply reachable_call. apply reachable_new. reflexivity. }
  assert (Ht0 : in_range Sample.t0) by (split; by_eval).
  assert (Ht1 : in_range (Sample.t0 - seconds 1)) by (split; by_eval).
  assert (Hc : clock_in_range
                 (perform Sample.json_dumps
                    (LogApiCall "EPSS" "https://api.first.org/data/v1/epss"
                       "CVE-1" 200 0.5 false)
                    (perform Sample.json_dumps
                       (CacheEpssScore "CVE-1" 0.42 90.0 "v1" "2024-01-01")
                       (perform Sample.json_dumps Init
                          (Sample.new_world 4 Sample.t0
                      (Sample.t0 - seconds 1))))))
    by exact (sample_clock_in_range 4 Sample.t0 (Sample.t0 - seconds 1)
                Ht0 Ht1).
  split; [exact Hr |]. split; [exact Hc |].
  split; [reflexivity |]. split; [reflexivity |].
  exact (stored_times_are_datetimes Sample.json_dumps _ Hr Hc).
Defined.

(** ** The statistics *)

Lemma dict_get_incr (ty k : string) (d : list (string * Z)) :
  dict_get ty (dict_incr k d) =
  if (k =? ty)%string then
    Some (match dict_get ty d with Some m => m + 1 | None => 1 end)
  else dict_get ty d.
Proof.
  induction d as [| [k' m] d IH]; cbn [dict_incr dict_get].
  - destruct (String.eqb_spec k ty); reflexivity.
  - destruct (String.eqb_spec k' k) as [E | N]; cbn [dict_get].
    + subst k'. destruct (String.eqb_spec k ty); reflexivity.
    + destruct (String.eqb_spec k' ty) as [E' | N'].
      * subst k'. destruct (String.eqb_spec k ty); [congruence | reflexivity].
      * exact IH.
Qed.

Lemma dict_get_fold (ty : string) (ks : list string) :
  forall d,
    dict_get ty (fold_left (fun d k => dict_incr k d) ks d) =
    let n := Z.of_nat (List.length (filter (fun k => (k =? ty)%string) ks)) in
    match dict_get ty d with
    | Some m => Some (m + n)
    | None => if n =? 0 then None else Some n
    end.
Proof.
  induction ks as [| k ks IH]; intros d; cbn [fold_left filter].
  - cbn. destruct (dict_get ty d); [f_equal; lia | reflexivity].
  - rewrite IH, dict_get_incr. cbv zeta.
    destruct (String.eqb_spec k ty) as [E | N].
    + cbn [List.length]. rewrite Nat2Z.inj_succ.
      destruct (dict_get ty d) as [m |]; [f_equal; lia |].
      destruct (Z.eqb_spec (Z.succ (Z.of_nat (List.length
                  (filter (fun k0 => (k0 =? ty)%string) ks)))) 0);
        [lia | f_equal; lia].
    + reflexivity.
Qed.

Lemma dict_get_group_count (ty : string) (ks : list string) :
  dict_get ty (group_count ks) =
  let n := Z.of_nat (List.length (filter (fun k => (k =? ty)%string) ks)) in
  if n =? 0 then None else Some n.
Proof. unfold group_count. rewrite dict_get_fold. reflexivity. Qed.

Lemma get_cache_stats_run (w : world) :
  get_cache_stats w =
  (Return
     {| Stats.epss_cached_entries :=
          Z.of_nat (List.length (epss_cache (store w)));
        Stats.cisa_kev_cached_entries :=
          Z.of_nat (List.length (cisa_kev_cache (store w)));
        Stats.total_api_calls :=
          Z.of_nat (List.length (api_call_log (store w)));
        Stats.cached_api_calls := rowcount_where Log.cached (api_call_log (store w));
        Stats.recent_calls_by_type :=
          group_count
            (map Log.api_type
               (filter (fun r => sql_text_gt (Log.timestamp r)
                          (sqlite_datetime (sqlite_clock w (ticks w) - hours 24)))
                       (api_call_log (store w)))) |},
   tick w).
Proof. reflexivity. Qed.

(** X11: which calls [get_cache_stats] reports as recent.  When every
    timestamp of the log is the ISO text of a [datetime] and SQLite's cutoff
    (its clock minus 24 hours) is one too, [recent_calls_by_type] gives for
    a type the number of its logged calls whose calendar day is the day of
    the cutoff or a later day, and has no key for a type without such a
    call.  The window is cut at midnight of the cutoff's day, not 24 hours
    back, and has no upper end. *)
Theorem recent_calls_counted_by_day
    (w : world) (stamp : Log.row -> datetime) (api_type : string) :
  Forall (fun r => in_range (stamp r) /\ Log.timestamp r = isoformat (stamp r))
         (api_call_log (store w)) ->
  in_range (sqlite_clock w (ticks w) - hours 24) ->
  exists s,
    result get_cache_stats w = Return s /\
    dict_get api_type (Stats.recent_calls_by_type s) =
    let cutoff := sqlite_clock w (ticks w) - hours 24 in
    let n := Z.of_nat (List.length
               (filter (fun r => (Log.api_type r =? api_type)%string
                                 && (cutoff / US_PER_DAY <=? stamp r / US_PER_DAY))
                       (api_call_log (store w)))) in
    if n =? 0 then None else Some n.
Proof.
  intros Hlog Hcut. unfold result. rewrite get_cache_stats_run. cbn [fst].
  eexists. split; [reflexivity |].
  cbn [Stats.recent_calls_by_type]. rewrite dict_get_group_count. cbv zeta.
  set (cutoff := sqlite_clock w (ticks w) - hours 24) in *.
  assert (E : List.length
                (filter (fun k => (k =? api_type)%string)
                   (map Log.api_type
                      (filter (fun r => sql_text_gt (Log.timestamp r)
                                          (sqlite_datetime cutoff))
                              (api_call_log (store w)))))
              = List.length
                  (filter (fun r => (Log.api_type r =? api_type)%string
                                    && (cutoff / US_PER_DAY
                                        <=? stamp r / US_PER_DAY))
                          (api_call_log (store w)))).
  { induction Hlog as [| r l [Hr Ht] _ IH]; [reflexivity |].
    cbn [filter]. rewrite Ht, recent_text_iff by assumption.
    destruct (cutoff / US_PER_DAY <=? stamp r / US_PER_DAY);
      cbn [map filter];
      destruct (Log.api_type r =? api_type)%string; cbn [andb List.length];
      rewrite IH; reflexivity. }
  rewrite E. reflexivity.
Qed.

Lemma recent_calls_counted_by_day_witness :
  let w := Sample.with_call (Sample.t0 + hours 47) in
  Forall (fun r => in_range Sample.t0 /\ Log.timestamp r = isoformat Sample.t0)
         (api_call_log (store w)) /\
  in_range (sqlite_clock w (ticks w) - hours 24) /\
  exists s,
    result get_cache_stats w = Return s /\
    dict_get "EPSS" (Stats.recent_calls_by_type s) = Some 1 /\
    dict_get "KEV" (Stats.recent_calls_by_type s) = None.
Proof.
  cbv zeta.
  assert (Hlog : Forall (fun r => in_range Sample.t0 /\
                                  Log.timestamp r = isoformat Sample.t0)
                   (api_call_log
                      (store (Sample.with_call (Sample.t0 + hours 47)))))
    by (repeat constructor; by_eval).
  assert (Hcut : in_range
                   (sqlite_clock (Sample.with_call (Sample.t0 + hours 47))
                      (ticks (Sample.with_call (Sample.t0 + hours 47)))
                    - hours 24)) by (split; by_eval).
  destruct (recent_calls_counted_by_day
              (Sample.with_call (Sample.t0 + hours 47))
              (fun _ => Sample.t0) "EPSS" Hlog Hcut) as (s & Hs & Hepss).
  destruct (recent_calls_counted_by_day
              (Sample.with_call (Sample.t0 + hours 47))
              (fun _ => Sample.t0) "KEV" Hlog Hcut) as (s' & Hs' & Hkev).
  split; [exact Hlog |]. split; [exact Hcut |].
  exists s. split; [exact Hs |].
  assert (Es : s' = s) by congruence. subst s'.
  split; [rewrite Hepss; reflexivity | rewrite Hkev; reflexivity].
Defined.

Section ExtraStatsFacts.
Context {Dict : Type} (json_dumps : Dict -> option string).

(** What [log_api_call] does to the tables: one entry more when it
    returns, nothing when it raises. *)
Lemma log_api_call_tables (api_type endpoint : string) (parameters : Dict)
    (status_code : Z) (response_time : float) (cached : bool) (w : world) :
  let m := log_api_call json_dumps api_type endpoint parameters status_code
             response_time cached in
  epss_cache (store (after m w)) = epss_cache (store w) /\
  cisa_kev_cache (store (after m w)) = cisa_kev_cache (store w) /\
  (result m w = Return tt ->
   exists new, Log.cached new = cached /\
     api_call_log (store (after m w))
     = (api_call_log (store w) ++ [new])%list) /\
  (result m w <> Return tt ->
   api_call_log (store (after m w)) = api_call_log (store w)).
Proof.
  cbv zeta. unfold after, result. rewrite log_api_call_run. cbv zeta.
  destruct (json_dumps parameters) as [text |];
    [destruct (negb (sqlite_integer_ok status_code));
     [| destruct (MAX_ROWID <=? _)] |];
    cbn [fst snd store with_store tick epss_cache cisa_kev_cache
         api_call_log];
    split_all; try reflexivity; try discriminate; try congruence.
  intros _. eexists. split; [| reflexivity]. reflexivity.
Qed.

(** X12: the totals of [get_cache_stats] follow the log.  The number of
    cached calls never exceeds the total; a [log_api_call] that returns
    raises the total by one and raises the number of cached calls by one
    exactly when it was logged with [cached] true; one that raises
    (parameters that [json.dumps] rejects, a status code outside 64 signed
    bits, the rowids exhausted) leaves both totals as they were; the two
    entry counts are as they were in both cases. *)
Theorem stats_follow_log_api_call
    (w : world) (api_type endpoint : string) (parameters : Dict)
    (status_code : Z) (response_time : float) (cached : bool) :
  let m := log_api_call json_dumps api_type endpoint parameters status_code
             response_time cached in
  let w' := after m w in
  exists s s',
    result get_cache_stats w = Return s /\
    result get_cache_stats w' = Return s' /\
    0 <= Stats.cached_api_calls s <= Stats.total_api_calls s /\
    Stats.epss_cached_entries s' = Stats.epss_cached_entries s /\
    Stats.cisa_kev_cached_entries s' = Stats.cisa_kev_cached_entries s /\
    (result m w = Return tt ->
     Stats.total_api_calls s' = Stats.total_api_calls s + 1 /\
     Stats.cached_api_calls s' =
       Stats.cached_api_calls s + (if cached then 1 else 0)) /\
    (result m w <> Return tt ->
     Stats.total_api_calls s' = Stats.total_api_calls s /\
     Stats.cached_api_calls s' = Stats.cached_api_calls s).
Proof.
  intros m w'.
  destruct (log_api_call_tables api_type endpoint parameters status_code
              response_time cached w) as (Ee & Ek & Hret & Hraise).
  fold m in Ee, Ek, Hret, Hraise. fold w' in Ee, Ek, Hret, Hraise.
  unfold result at 1 2. rewrite !get_cache_stats_run. cbn [fst].
  do 2 eexists. split; [reflexivity |]. split; [reflexivity |].
  cbn [Stats.cached_api_calls Stats.total_api_calls
       Stats.epss_cached_entries Stats.cisa_kev_cached_entries].
  rewrite Ee, Ek. unfold rowcount_where.
  pose proof (filter_length_le Log.cached (api_call_log (store w))).
  split_all; try reflexivity; try lia.
  - intros Hr. destruct (Hret Hr) as (new & Hc & ->).
    rewrite filter_app, !length_app. cbn [filter]. rewrite Hc.
    destruct cached; cbn [List.length app]; lia.
  - intros Hr. rewrite (Hraise Hr). split; reflexivity.
Qed.
End ExtraStatsFacts.

Lemma stats_follow_log_api_call_witness :
  let w := Sample.with_call (Sample.t0 + hours 1) in
  let taken := log_api_call Sample.json_dumps "KEV" "https://www.cisa.gov/"
                 "all" 200 0.25 true in
  let refused := log_api_call Sample.json_dumps "KEV" "https://www.cisa.gov/"
                   "all" (2 ^ 63) 0.25 true in
  result taken w = Return tt /\
  result refused w = Raise OverflowError /\
  (exists s s',
     result get_cache_stats w = Return s /\
     result get_cache_stats (after taken w) = Return s' /\
     Stats.total_api_calls s' = Stats.total_api_calls s + 1 /\
     Stats.cached_api_calls s' = Stats.cached_api_calls s + 1) /\
  (exists s s',
     result get_cache_stats w = Return s /\
     result get_cache_stats (after refused w) = Return s' /\
     Stats.total_api_calls s' = Stats.total_api_calls s /\
     Stats.cached_api_calls s' = Stats.cached_api_calls s).
Proof.
  cbv zeta.
  destruct (stats_follow_log_api_call Sample.json_dumps
              (Sample.with_call (Sample.t0 + hours 1))
              "KEV" "https://www.cisa.gov/" "all" 200 0.25 true)
    as (s & s' & Hs & Hs' & _ & _ & _ & Hret & _).
  destruct (stats_follow_log_api_call Sample.json_dumps
              (Sample.with_call (Sample.t0 + hours 1))
              "KEV" "https://www.cisa.gov/" "all" (2 ^ 63) 0.25 true)
    as (r & r' & Hr & Hr' & _ & _ & _ & _ & Hraise).
  destruct Hret as [Ht Hc]; [by_eval |].
  destruct Hraise as [Ht' Hc']; [by_eval |].
  split; [by_eval |]. split; [by_eval |].
  split.
  - exists s, s'. split; [exact Hs |]. split; [exact Hs' |].
    split; [exact Ht | exact Hc].
  - exists r, r'. split; [exact Hr |]. split; [exact Hr' |].
    split; [exact Ht' | exact Hc'].
Defined.

(** ** Reads leave later answers alone *)

Lemma listing_after_update {R : Type} (key : R -> string) (p : R -> bool)
    (k : string) (f : R -> R) (t : list R) :
  (forall r, p (f r) = p r) -> (forall r, key (f r) = key r) ->
  map key (filter p (update_by_key key k f t)) = map key (filter p t).
Proof.
  intros Hp Hk. unfold update_by_key.
  induction t as [| x t IH]; cbn [map filter]; [reflexivity |].
  destruct (key x =? k)%string.
  - rewrite Hp. destruct (p x); cbn [map]; rewrite ?Hk, IH; reflexivity.
  - destruct (p x); cbn [map]; rewrite IH; reflexivity.
Qed.

(** X13: a read that hits writes [last_accessed], and nothing that is read
    later depends on it.  After [get_epss_score], every [get_epss_score]
    returns what it would return on the store as it was before, at the same
    clock reading; after [is_in_cisa_kev], so does every [is_in_cisa_kev] and
    every [get_all_cisa_kev_cves].  Reading an entry often does not keep it
    fresh. *)
Theorem reads_leave_later_answers
    (w : world) (cve_id cve_id' : string) (max_age_days max_age_days' : Z) :
  let we := after (get_epss_score cve_id max_age_days) w in
  let wk := after (is_in_cisa_kev cve_id max_age_days) w in
  let before (w' : world) := with_store (fun _ => store w) w' in
  result (get_epss_score cve_id' max_age_days') we
  = result (get_epss_score cve_id' max_age_days') (before we) /\
  result (is_in_cisa_kev cve_id' max_age_days') wk
  = result (is_in_cisa_kev cve_id' max_age_days') (before wk) /\
  result (get_all_cisa_kev_cves max_age_days') wk
  = result (get_all_cisa_kev_cves max_age_days') (before wk).
Proof.
  cbv zeta. split_all.
  - unfold after. rewrite (get_epss_score_run cve_id max_age_days w).
    destruct (epss_entry (store w) cve_id) as [r |] eqn:Hr;
      [| destruct w; reflexivity].
    destruct (timedelta_days_ok max_age_days); [| reflexivity].
    destruct (_ >? _); [reflexivity |]. cbn [snd].
    unfold result. rewrite !get_epss_score_run.
    unfold epss_entry.
    cbn [store with_store with_epss_cache epss_cache].
    rewrite fetchone_update by reflexivity.
    unfold now. cbn [with_store wall_clock ticks tick store].
    destruct (cve_id' =? cve_id)%string;
      destruct (fetchone_by_key Epss.cve_id cve_id' (epss_cache (store w)));
      cbn [option_map Epss.set_last_accessed Epss.cached_at Epss.epss_score
           Epss.percentile Epss.model_version Epss.score_date];
      try reflexivity;
      repeat match goal with
             | |- context [if ?b then _ else _] => destruct b
             end; reflexivity.
  - unfold after. rewrite (is_in_cisa_kev_run cve_id max_age_days w).
    destruct (kev_entry (store w) cve_id) as [r |] eqn:Hr;
      [| destruct w; reflexivity].
    destruct (timedelta_days_ok max_age_days); [| reflexivity].
    destruct (_ >? _); [reflexivity |]. cbn [snd].
    unfold result. rewrite !is_in_cisa_kev_run.
    unfold kev_entry.
    cbn [store with_store with_cisa_kev_cache cisa_kev_cache].
    rewrite fetchone_update by reflexivity.
    unfold now. cbn [with_store wall_clock ticks tick store].
    destruct (cve_id' =? cve_id)%string;
      destruct (fetchone_by_key Kev.cve_id cve_id' (cisa_kev_cache (store w)));
      cbn [option_map Kev.set_last_accessed Kev.cached_at];
      try reflexivity;
      repeat match goal with
             | |- context [if ?b then _ else _] => destruct b
             end; reflexivity.
  - unfold after. rewrite (is_in_cisa_kev_run cve_id max_age_days w).
    destruct (kev_entry (store w) cve_id) as [r |] eqn:Hr;
      [| destruct w; reflexivity].
    destruct (timedelta_days_ok max_age_days); [| reflexivity].
    destruct (_ >? _); [reflexivity |]. cbn [snd].
    unfold result, get_all_cisa_kev_cves. run_py.
    destruct (timedelta_days_ok max_age_days'); [| reflexivity].
    cbn [store with_store tick ticks wall_clock].
    destruct (in_rangeb _); [| reflexivity].
    cbn [fst store with_store with_cisa_kev_cache cisa_kev_cache tick].
    f_equal.
    apply (listing_after_update Kev.cve_id
             (fun r => sql_text_gt (isoformat (Kev.cached_at r))
                (isoformat (wall_clock w (S (S (ticks w))) - days max_age_days')))
             cve_id (Kev.set_last_accessed (now (tick w))));
      reflexivity.
Qed.

(** ** What the sweep reports *)

Lemma length_filter_split {R : Type} (p : R -> bool) (t : list R) :
  (List.length (filter p t) + List.length (filter (fun r => negb (p r)) t)
   = List.length t)%nat.
Proof.
  induction t as [| x t IH]; cbn [filter]; [reflexivity |].
  destruct (p x); cbn [negb List.length]; lia.
Qed.

(** X14: the numbers [clear_expired_cache] returns are the numbers of rows
    it removed: whatever the maximum ages and the stored timestamps, when it
    returns, [epss_deleted] and [kev_deleted] are the differences between
    the sizes of the two caches before and after, and every row left is a
    row that was there; when it raises, no table is changed. *)
Theorem sweep_counts_what_it_removes
    (w : world) (epss_max_age_days kev_max_age_days : Z) :
  let sweep := clear_expired_cache epss_max_age_days kev_max_age_days in
  let d := store w in
  let d' := store (after sweep w) in
  match result sweep w with
  | Return s =>
      Swept.epss_deleted s
      = Z.of_nat (List.length (epss_cache d))
        - Z.of_nat (List.length (epss_cache d')) /\
      Swept.kev_deleted s
      = Z.of_nat (List.length (cisa_kev_cache d))
        - Z.of_nat (List.length (cisa_kev_cache d')) /\
      0 <= Swept.epss_deleted s /\ 0 <= Swept.kev_deleted s /\
      (forall r, In r (epss_cache d') -> In r (epss_cache d)) /\
      (forall r, In r (cisa_kev_cache d') -> In r (cisa_kev_cache d))
  | Raise _ => d' = d
  end.
Proof.
  cbv zeta. unfold result, after, clear_expired_cache. run_py.
  destruct (timedelta_days_ok epss_max_age_days); [| reflexivity].
  destruct (in_rangeb _); [| reflexivity].
  destruct (timedelta_days_ok kev_max_age_days); [| reflexivity].
  cbn [tick ticks wall_clock store].
  destruct (in_rangeb _); [| reflexivity].
  cbn [fst snd store with_store with_epss_cache with_cisa_kev_cache tick
       epss_cache cisa_kev_cache Swept.epss_deleted Swept.kev_deleted].
  unfold rowcount_where, delete_where.
  match goal with
  | |- context [filter ?pe (epss_cache (store w))] =>
      pose proof (length_filter_split pe (epss_cache (store w)))
  end.
  match goal with
  | |- context [filter ?pk (cisa_kev_cache (store w))] =>
      pose proof (length_filter_split pk (cisa_kev_cache (store w)))
  end.
  split_all; try lia; intros r Hr; apply filter_In in Hr; apply Hr.
Qed.
